(** * getdata_dem: download of a DEM raster over WCS, slope and aspect names

    A shallow embedding of [inst/python/getdata_dem.py]. The module talks to
    three libraries that are not part of the repository: [os] (directories,
    paths, files), [owslib] (the Web Coverage Service client) and [gdal]
    (terrain processing). Their calls are modelled here from their documented
    behaviour: path functions as POSIX [posixpath] computes them, the file
    system as a finite map from path strings to nodes, and the remote service,
    the clock, Python's [/] and the raster engine as fields of an environment
    record [Env], whose answers the theorems quantify over.

    Python code that may raise runs in the monad [M]: a state transformer over
    the [World] (files and a trace of the calls made so far) whose result is
    either an exception or a value. *)

From Stdlib Require Import Floats.PrimFloat Uint63 ZArith Ascii String.
From stdpp Require Import base gmap strings list.

Set Warnings "-inexact-float,-register-all".

(** ** Python values *)

(** The values that flow through the module's parameters and results. *)
Inductive PyVal : Type :=
  | PyNone
  | PyBool (b : bool)
  | PyInt (z : Z)
  | PyFloat (x : float)
  | PyStr (s : string)
  | PyList (items : list PyVal)
  | PyTuple (items : list PyVal).

(** Exception classes that the modelled calls raise. [LibraryError] stands for
    whatever an external library raises on a fault of its own (a network
    timeout, a service exception report, a disk that is full). *)
Inductive exn : Type :=
  | FileNotFoundError
  | FileExistsError
  | IsADirectoryError
  | KeyError (key : string)
  | AttributeError
  | TypeError
  | ZeroDivisionError
  | RuntimeError
  | LibraryError (what : string).

(** ** owslib: the coverage service as the client library presents it *)

(** [ContentMetadata]: one advertised coverage. Absent XML elements are [None]
    in owslib, hence [PyVal] rather than [string]. *)
Record ContentMetadata : Type := {
  title : PyVal;
  abstract : PyVal;
  boundingBoxWGS84 : PyVal;
}.

(** The keyword arguments of [wcs.getCoverage(...)]. *)
Record CoverageRequest : Type := {
  identifier : string;
  bbox : PyVal;
  format : string;
  crs : PyVal;
  resx : PyVal;
  resy : PyVal;
  Styles : string;
}.

(** The file-like object [getCoverage] returns; [read()] yields the body or
    raises when the transfer breaks. *)
Record Response : Type := {
  read : exn + list Byte.byte;
}.

(** A connected [WebCoverageService] object. [contents] is the dictionary of
    coverages in the order the capabilities document lists them. *)
Record Wcs : Type := {
  contents : list (string * ContentMetadata);
  getCoverage : CoverageRequest -> exn + Response;
}.

(** ** The world outside the interpreter *)

Inductive node : Type :=
  | File (content : list Byte.byte)
  | Dir.

(** Calls on which the operating system may refuse service for reasons the
    file map does not record (permissions, quota, a missing parent). *)
Inductive IoCall : Type :=
  | CallMakedirs (path : string)
  | CallOpen (path : string)
  | CallWrite (path : string).

(** A calendar date as [datetime.now(timezone.utc)] reports it. *)
Record Date : Type := {
  year : Z;
  month : Z;
  day : Z;
}.

Record Env : Type := {
  (** Python's true division [a / b]. *)
  truediv : PyVal -> PyVal -> exn + PyVal;
  (** [WebCoverageService(url, version=..., timeout=...)]. *)
  WebCoverageService : string -> string -> Z -> exn + Wcs;
  (** The current UTC date. *)
  utc_today : Date;
  (** The operating system's refusals. *)
  os_refuses : IoCall -> option exn;
  (** [gdal.DEMProcessing(dest, src, mode)]: the raster engine, as a function
      of the files it finds to the files it leaves, unless it raises. *)
  gdal_DEMProcessing : string -> string -> string -> gmap string node -> exn + gmap string node;
}.

(** What the calls leave behind, in the order they happen. *)
Inductive Event : Type :=
  | EvPrint (line : list PyVal)
  | EvGetCapabilities (url : string)
  | EvGetCoverage (req : CoverageRequest)
  | EvOpen (path : string)
  | EvWrite (path : string) (data : list Byte.byte).

Record World : Type := {
  files : gmap string node;
  trace : list Event;
}.

(** ** The monad of Python statements *)

Definition M (A : Type) : Type := World -> (exn + A) * World.

Definition ret {A} (a : A) : M A := fun w => (inr a, w).

Definition raise {A} (e : exn) : M A := fun w => (inl e, w).

Definition bind {A B} (m : M A) (k : A -> M B) : M B :=
  fun w =>
    match m w with
    | (inl e, w') => (inl e, w')
    | (inr a, w') => k a w'
    end.

(** [try: body except: handler]: a bare [except] catches every exception; the
    effects of the body up to the raise stay. *)
Definition try_except {A} (body : M A) (handler : M A) : M A :=
  fun w =>
    match body w with
    | (inl _, w') => handler w'
    | (inr a, w') => (inr a, w')
    end.

Definition lift {A} (r : exn + A) : M A := fun w => (r, w).

Definition emit (ev : Event) : M unit :=
  fun w => (inr tt, {| files := files w; trace := trace w ++ [ev] |}).

Definition print (line : list PyVal) : M unit := emit (EvPrint line).

Declare Scope py_scope.
Delimit Scope py_scope with py.
Notation "x <- m ;; k" := (bind m (fun x => k))
  (at level 100, m at next level, right associativity) : py_scope.
Notation "m ;;; k" := (bind m (fun _ => k))
  (at level 100, right associativity) : py_scope.
Local Open Scope py_scope.

(** ** Strings: the [str] methods and slices the module uses *)

Definition is_sep (c : ascii) : bool := Ascii.eqb c "/"%char.

(** [s.replace(old, new)] for a one-character [old]: every occurrence, left to
    right. (Strings are UTF-8 byte strings; a byte below 128 never occurs
    inside a multi-byte character, so replacing the byte replaces the
    character.) *)
Fixpoint replace_char (old : ascii) (new : string) (s : string) : string :=
  match s with
  | EmptyString => EmptyString
  | String c rest =>
      if Ascii.eqb c old then new +:+ replace_char old new rest
      else String c (replace_char old new rest)
  end.

(** The method call [v.replace(' ', '_')] on a Python value: only [str] has
    the attribute (a title that is [None] raises). *)
Definition str_replace (v : PyVal) (old : ascii) (new : string) : exn + string :=
  match v with
  | PyStr s => inr (replace_char old new s)
  | _ => inl AttributeError
  end.

(** [s[:i]] and [s[i:]] for [0 <= i]. *)
Fixpoint slice_to (i : nat) (s : string) : string :=
  match i, s with
  | S k, String c rest => String c (slice_to k rest)
  | _, _ => EmptyString
  end.

Fixpoint slice_from (i : nat) (s : string) : string :=
  match i, s with
  | S k, String _ rest => slice_from k rest
  | _, _ => s
  end.

(** [p.rfind('/') + 1]: the length of [p] up to and including its last
    separator, [0] when it has none. *)
Fixpoint rfind_sep_next (p : string) : nat :=
  match p with
  | EmptyString => 0
  | String c rest =>
      match rfind_sep_next rest with
      | S k => S (S k)
      | O => if is_sep c then 1 else 0
      end
  end.

(** [s.rstrip('/')]. *)
Fixpoint rstrip_sep (s : string) : string :=
  match s with
  | EmptyString => EmptyString
  | String c rest =>
      match rstrip_sep rest with
      | EmptyString => if is_sep c then EmptyString else String c EmptyString
      | kept => String c kept
      end
  end.

(** [s == '/' * len(s)]. *)
Fixpoint all_sep (s : string) : bool :=
  match s with
  | EmptyString => true
  | String c rest => is_sep c && all_sep rest
  end.

Definition startswith_sep (s : string) : bool :=
  match s with
  | String c _ => is_sep c
  | EmptyString => false
  end.

Fixpoint endswith_sep (s : string) : bool :=
  match s with
  | EmptyString => false
  | String c EmptyString => is_sep c
  | String _ rest => endswith_sep rest
  end.


(** ** os.path (posixpath) *)

(** [os.path.join(a, b)]: an absolute [b] replaces [a]; otherwise one
    separator is put between them unless [a] is empty or ends with one. *)
Definition os_path_join (a b : string) : string :=
  if startswith_sep b then b
  else if (String.eqb a "" || endswith_sep a) then a +:+ b
  else a +:+ "/" +:+ b.

Definition os_path_basename (p : string) : string :=
  slice_from (rfind_sep_next p) p.

Definition os_path_dirname (p : string) : string :=
  let head := slice_to (rfind_sep_next p) p in
  if negb (String.eqb head "") && negb (all_sep head) then rstrip_sep head
  else head.

(** ** datetime: [strftime('%Y-%m-%d')] *)

Definition digit (n : Z) : ascii := ascii_of_N (Z.to_N (48 + n mod 10)%Z).

Definition two_digits (n : Z) : string :=
  String (digit (n / 10)%Z) (String (digit n) EmptyString).

Definition four_digits (n : Z) : string :=
  String (digit (n / 1000)%Z) (String (digit (n / 100)%Z) (two_digits n)).

(** [%Y] is the year with century, zero-padded to four digits; [%m] and [%d]
    are zero-padded to two. *)
Definition strftime_Ymd (d : Date) : string :=
  four_digits (year d) +:+ "-" +:+ two_digits (month d) +:+ "-" +:+ two_digits (day d).

(** ** Dictionaries *)

(** [d[k]]. *)
Definition dict_getitem (d : gmap string PyVal) (k : string) : exn + PyVal :=
  match d !! k with
  | Some v => inr v
  | None => inl (KeyError k)
  end.

(** ** get_metadict *)

Definition get_metadict : gmap string PyVal :=
  let demdict : gmap string PyVal := ∅ in
  let demdict := <["title" := PyStr "DEM 1 Second Grid"]> demdict in
  let demdict := <["description" := PyStr "Digital Elevation Model (DEM) of Australia derived from STRM with 1 Second Grid - Hydrologically Enforced."]> demdict in
  let demdict := <["crs" := PyStr "EPSG:4326"]> demdict in
  let demdict := <["bbox" := PyList [PyFloat 112.99986111100009; PyFloat (-44.0001388895483);
                                     PyFloat 153.9998611116614; PyFloat (-10.000138888999906)]]> demdict in
  let demdict := <["resolution_arcsec" := PyInt 1]> demdict in
  demdict.

(** ** The output file name *)

(** Line 162: [layername.replace(' ', '_') + '_' + date + '.tif']. *)
Definition fname_out (layername : PyVal) (date : string) : exn + string :=
  match str_replace layername " "%char "_" with
  | inl e => inl e
  | inr replaced => inr (replaced +:+ "_" +:+ date +:+ ".tif")
  end.

(** ** owslib: dictionary access to the coverages *)

(** [content[k]] on the ordered dictionary of coverages. A dictionary has each
    key once; the first match is the entry. *)
Fixpoint contents_lookup (content : list (string * ContentMetadata)) (k : string)
  : option ContentMetadata :=
  match content with
  | [] => None
  | (k', cm) :: rest => if String.eqb k' k then Some cm else contents_lookup rest k
  end.

(** [content.keys()]. *)
Definition contents_keys (content : list (string * ContentMetadata)) : list string :=
  fst <$> content.

(** [wcs[name]]: owslib's [__getitem__] raises [KeyError] for an unknown name. *)
Definition wcs_getitem (wcs : Wcs) (name : string) : M ContentMetadata :=
  match contents_lookup (contents wcs) name with
  | Some cm => ret cm
  | None => raise (KeyError name)
  end.

(** [for x in xs: body], the loop state passed along. *)
Fixpoint for_each {A S} (xs : list A) (body : A -> S -> M S) (s : S) : M S :=
  match xs with
  | [] => ret s
  | x :: rest => s' <- body x s;; for_each rest body s'
  end.

Section Program.

Context (env : Env).

(** ** Calls into the libraries *)

(** [os.makedirs(path, exist_ok=True)]. The file map holds paths as they are
    written. *)
Definition os_makedirs (path : string) : M unit :=
  fun w =>
    match os_refuses env (CallMakedirs path) with
    | Some e => (inl e, w)
    | None =>
        if String.eqb path "" then (inl FileNotFoundError, w)
        else match files w !! path with
             | Some Dir => (inr tt, w)
             | Some (File _) => (inl FileExistsError, w)
             | None => (inr tt, {| files := <[path := Dir]> (files w); trace := trace w |})
             end
    end.

(** [os.path.exists(path)]. *)
Definition os_path_exists (path : string) : M bool :=
  fun w => (inr (bool_decide (is_Some (files w !! path))), w).

(** [open(path, 'wb')]: creates the file or truncates it. *)
Definition open_wb (path : string) : M string :=
  fun w =>
    match os_refuses env (CallOpen path) with
    | Some e => (inl e, w)
    | None =>
        match files w !! path with
        | Some Dir => (inl IsADirectoryError, w)
        | _ => (inr path, {| files := <[path := File []]> (files w);
                             trace := trace w ++ [EvOpen path] |})
        end
    end.

(** [f.write(data)] on a file just opened with ['wb'], then closed. *)
Definition file_write (f : string) (data : list Byte.byte) : M unit :=
  fun w =>
    match os_refuses env (CallWrite f) with
    | Some e => (inl e, w)
    | None => (inr tt, {| files := <[f := File data]> (files w);
                          trace := trace w ++ [EvWrite f data] |})
    end.

(** [WebCoverageService(url, version='1.0.0', timeout=300)]. *)
Definition connect (url : string) : M Wcs :=
  emit (EvGetCapabilities url);;;
  lift (WebCoverageService env url "1.0.0" 300).

(** [wcs.getCoverage(...)]: one request over the network. *)
Definition wcs_getCoverage (wcs : Wcs) (req : CoverageRequest) : M Response :=
  emit (EvGetCoverage req);;;
  lift (getCoverage wcs req).

(** [datetime.now(timezone.utc).strftime('%Y-%m-%d')]. *)
Definition utcnow_Ymd : M string := ret (strftime_Ymd (utc_today env)).

(** [gdal.DEMProcessing(dest, src, mode)]. *)
Definition DEMProcessing (dest src mode : string) : M unit :=
  fun w =>
    match gdal_DEMProcessing env dest src mode (files w) with
    | inl e => (inl e, w)
    | inr fs => (inr tt, {| files := fs; trace := trace w |})
    end.

(** ** get_capabilities *)

(** The body of the [for] loop, lines 109-116, on the three lists. *)
Definition capabilities_row (wcs : Wcs) (key : string)
    (lists : list PyVal * list PyVal * list PyVal)
  : M (list PyVal * list PyVal * list PyVal) :=
  let '(title_list, description_list, bbox_list) := lists in
  print [PyStr "key: "; PyStr key];;;
  cm <- wcs_getitem wcs key;;
  print [PyStr "title: "; title cm];;;
  cm <- wcs_getitem wcs key;;
  let title_list := title_list ++ [title cm] in
  cm <- wcs_getitem wcs key;;
  print [abstract cm];;;
  cm <- wcs_getitem wcs key;;
  let description_list := description_list ++ [abstract cm] in
  cm <- wcs_getitem wcs key;;
  print [PyStr "bounding box: "; boundingBoxWGS84 cm];;;
  cm <- wcs_getitem wcs key;;
  let bbox_list := bbox_list ++ [boundingBoxWGS84 cm] in
  print [PyStr ""];;;
  ret (title_list, description_list, bbox_list).

Definition get_capabilities (url : string)
  : M (list string * list PyVal * list PyVal * list PyVal) :=
  wcs <- connect url;;
  let content := contents wcs in
  let keys := contents_keys content in
  print [PyStr "Following data layers are available:"];;;
  lists <- for_each keys (capabilities_row wcs) ([], [], []);;
  let '(title_list, description_list, bbox_list) := lists in
  ret (keys, title_list, description_list, bbox_list).

(** ** getwcs_dem *)


(** The body of the [try] block (lines 159-178); its value is [outfname]. *)
Definition download (outpath : string) (bbox : PyVal) (resolution : PyVal)
    (url : string) (crs : PyVal) : M string :=
  wcs <- connect url;;
  cm <- wcs_getitem wcs "1";;
  let layername := title cm in
  date <- utcnow_Ymd;;
  fname_out <- lift (fname_out layername date);;
  let outfname := os_path_join outpath fname_out in
  found <- os_path_exists outfname;;
  (if found : bool then
     print [PyStr outfname; PyStr " already exists"]
   else
     rx <- lift (truediv env resolution (PyInt 3600));;
     ry <- lift (truediv env resolution (PyInt 3600));;
     data <- wcs_getCoverage wcs
       {| identifier := "1"; bbox := bbox; format := "GeoTIFF"; crs := crs;
          resx := rx; resy := ry; Styles := "tc" |};;
     f <- open_wb outfname;;
     body <- lift (read data);;
     file_write f body;;;
     print [PyStr "DEM downloaded to:"; PyStr outfname]);;;
  ret outfname.

Definition getwcs_dem (outpath : string) (bbox : PyVal) (resolution : PyVal)
    (url : string) (crs : PyVal) : M PyVal :=
  resolution <- (match resolution with
                 | PyNone => lift (dict_getitem get_metadict "resolution_arcsec")
                 | _ => ret resolution
                 end);;
  os_makedirs outpath;;;
  try_except
    (outfname <- download outpath bbox resolution url crs;;
     ret (PyStr outfname))
    (print [PyStr "Download failed"];;;
     ret (PyBool false)).

(** ** dem2slope, dem2aspect *)

Definition dem2slope (fname_dem : string) : M string :=
  let fname := os_path_basename fname_dem in
  let path := os_path_dirname fname_dem in
  let fname_out := os_path_join path ("Slope_" +:+ fname) in
  DEMProcessing fname_out fname_dem "slope";;;
  print [PyStr "DEM slope from:"; PyStr fname_dem; PyStr " saved to:"; PyStr fname_out];;;
  ret fname_out.

Definition dem2aspect (fname_dem : string) : M string :=
  let fname := os_path_basename fname_dem in
  let path := os_path_dirname fname_dem in
  let fname_out := os_path_join path ("Aspect_" +:+ fname) in
  DEMProcessing fname_out fname_dem "aspect";;;
  print [PyStr "DEM aspect from:"; PyStr fname_dem; PyStr " saved to:"; PyStr fname_out];;;
  ret fname_out.

End Program.

(** ** Sample environments

    Concrete answers of the outside world, for running the functions. *)

Definition float_of_Z (z : Z) : float :=
  match z with
  | Z0 => 0%float
  | Zpos _ => PrimFloat.of_uint63 (Uint63.of_Z z)
  | Zneg n => PrimFloat.opp (PrimFloat.of_uint63 (Uint63.of_Z (Zpos n)))
  end.

(** True division on the numbers a resolution is given as (integers below
    2^53 in magnitude convert to a float exactly). *)
Definition truediv_small (a b : PyVal) : exn + PyVal :=
  match a, b with
  | PyInt x, PyInt y =>
      if (y =? 0)%Z then inl ZeroDivisionError
      else inr (PyFloat (PrimFloat.div (float_of_Z x) (float_of_Z y)))
  | PyFloat x, PyInt y =>
      if (y =? 0)%Z then inl ZeroDivisionError
      else inr (PyFloat (PrimFloat.div x (float_of_Z y)))
  | _, _ => inl TypeError
  end.

Definition sample_url : string :=
  "https://services.ga.gov.au/site_9/services/DEM_SRTM_1Second_Hydro_Enforced/MapServer/WCSServer?request=GetCapabilities&service=WCS".

Definition sample_bbox : PyVal :=
  PyTuple [PyInt 114; PyInt (-44); PyFloat 153.9; PyInt (-11)].

Definition sample_body : list Byte.byte := [Byte.x49; Byte.x49; Byte.x2a; Byte.x00].

(** A service with the single coverage ["1"] under the given title. *)
Definition sample_wcs (layer_title : PyVal) : Wcs :=
  {| contents := [("1", {| title := layer_title;
                           abstract := PyStr "Hydrologically enforced DEM";
                           boundingBoxWGS84 := PyTuple [PyFloat 112.99986111100009;
                                                        PyFloat (-44.0001388895483);
                                                        PyFloat 153.9998611116614;
                                                        PyFloat (-10.000138888999906)] |})];
     getCoverage := fun _ => inr {| read := inr sample_body |} |}.

Definition sample_env (layer_title : PyVal) : Env :=
  {| truediv := truediv_small;
     WebCoverageService := fun _ _ _ => inr (sample_wcs layer_title);
     utc_today := {| year := 2022; month := 3; day := 9 |};
     os_refuses := fun _ => None;
     gdal_DEMProcessing := fun dest src _ fs =>
       match fs !! src with
       | Some (File raster) => inr (<[dest := File raster]> fs)
       | _ => inl RuntimeError
       end |}.

(** A service that lists two coverages, the second with no abstract and no
    bounding box, and serves neither. *)
Definition survey_wcs : Wcs :=
  {| contents := [("1", {| title := PyStr "DEM 1 Second Grid";
                           abstract := PyStr "Hydrologically enforced DEM";
                           boundingBoxWGS84 := PyTuple [PyFloat 113; PyFloat (-44);
                                                        PyFloat 154; PyFloat (-10)] |});
                  ("2", {| title := PyStr "DEM Smoothed";
                           abstract := PyNone;
                           boundingBoxWGS84 := PyNone |})];
     getCoverage := fun _ => inl (LibraryError "ServiceException") |}.

Definition survey_env : Env :=
  {| truediv := truediv_small;
     WebCoverageService := fun _ _ _ => inr survey_wcs;
     utc_today := {| year := 2022; month := 3; day := 9 |};
     os_refuses := fun _ => None;
     gdal_DEMProcessing := fun _ _ _ _ => inl RuntimeError |}.

(** The same service when the network is down. *)
Definition offline_env : Env :=
  {| truediv := truediv_small;
     WebCoverageService := fun _ _ _ => inl (LibraryError "ConnectionError");
     utc_today := {| year := 2022; month := 3; day := 9 |};
     os_refuses := fun _ => None;
     gdal_DEMProcessing := fun _ _ _ _ => inl RuntimeError |}.

Definition empty_world : World := {| files := ∅; trace := [] |}.

(** ** Notions the statements use *)

(** The resolution after lines 153-154. *)
Definition effective_resolution (resolution : PyVal) : PyVal :=
  match resolution with
  | PyNone => PyInt 1
  | _ => resolution
  end.

(** Every space of a string turned into an underscore, character by
    character. *)
Fixpoint spaces_to_underscores (s : string) : string :=
  match s with
  | EmptyString => EmptyString
  | String c rest =>
      String (if Ascii.eqb c " "%char then "_"%char else c) (spaces_to_underscores rest)
  end.

(** Reading a date written as [YYYY-MM-DD]. *)
Definition digit_value (c : ascii) : option Z :=
  let n := Z.of_N (N_of_ascii c) in
  if (48 <=? n)%Z && (n <=? 57)%Z then Some (n - 48)%Z else None.

Fixpoint digits_value (acc : Z) (cs : list ascii) : option Z :=
  match cs with
  | [] => Some acc
  | c :: rest =>
      match digit_value c with
      | Some v => digits_value (10 * acc + v)%Z rest
      | None => None
      end
  end.

Definition parse_iso_date (s : string) : option Date :=
  match list_ascii_of_string s with
  | [y3; y2; y1; y0; h1; m1; m0; h2; d1; d0] =>
      if Ascii.eqb h1 "-"%char && Ascii.eqb h2 "-"%char then
        match digits_value 0 [y3; y2; y1; y0], digits_value 0 [m1; m0], digits_value 0 [d1; d0] with
        | Some y, Some m, Some d => Some {| year := y; month := m; day := d |}
        | _, _, _ => None
        end
      else None
  | _ => None
  end.

(** The dates [datetime.now] can report whose year prints with four digits. *)
Definition valid_date (d : Date) : Prop :=
  (1000 ≤ year d ≤ 9999 ∧ 1 ≤ month d ≤ 12 ∧ 1 ≤ day d ≤ 31)%Z.


(** No separator anywhere: the string is a single path component. *)
Fixpoint has_sep (s : string) : bool :=
  match s with
  | EmptyString => false
  | String c rest => is_sep c || has_sep rest
  end.

(** [os.path.dirname] of a directory followed by a separator and a file
    name: the directory without its trailing separators, unless it consists
    of separators only. *)
Definition dir_part (X : string) : string :=
  if all_sep X then X +:+ "/" else rstrip_sep X.

(** The request of lines 167-174 for a per-axis resolution [q]. *)
Definition coverage_request (bbox crs q : PyVal) : CoverageRequest :=
  {| identifier := "1"; bbox := bbox; format := "GeoTIFF"; crs := crs;
     resx := q; resy := q; Styles := "tc" |}.

(** The download has come to the point of fetching: the service answered,
    layer 1 has a title that gives a file name, and no file is at the path. *)
Definition reaches_fetch (env : Env) (outpath url : string) (w : World)
    (wcs : Wcs) (name : string) : Prop :=
  WebCoverageService env url "1.0.0" 300 = inr wcs
  ∧ (∃ cm, contents_lookup (contents wcs) "1" = Some cm
           ∧ fname_out (title cm) (strftime_Ymd (utc_today env)) = inr name)
  ∧ files w !! os_path_join outpath name = None.

(** The faults of the guarded part of [getwcs_dem], each with the exception
    it raises. *)
Inductive guarded_fault (env : Env) (outpath : string) (bbox r : PyVal) (url : string)
    (crs : PyVal) (w : World) : exn → Prop :=
  | fault_connect e :
      WebCoverageService env url "1.0.0" 300 = inl e →
      guarded_fault env outpath bbox r url crs w e
  | fault_layer wcs :
      WebCoverageService env url "1.0.0" 300 = inr wcs →
      contents_lookup (contents wcs) "1" = None →
      guarded_fault env outpath bbox r url crs w (KeyError "1")
  | fault_title wcs cm e :
      WebCoverageService env url "1.0.0" 300 = inr wcs →
      contents_lookup (contents wcs) "1" = Some cm →
      fname_out (title cm) (strftime_Ymd (utc_today env)) = inl e →
      guarded_fault env outpath bbox r url crs w e
  | fault_division wcs name e :
      reaches_fetch env outpath url w wcs name →
      truediv env r (PyInt 3600) = inl e →
      guarded_fault env outpath bbox r url crs w e
  | fault_request wcs name q e :
      reaches_fetch env outpath url w wcs name →
      truediv env r (PyInt 3600) = inr q →
      getCoverage wcs (coverage_request bbox crs q) = inl e →
      guarded_fault env outpath bbox r url crs w e
  | fault_open wcs name q resp e :
      reaches_fetch env outpath url w wcs name →
      truediv env r (PyInt 3600) = inr q →
      getCoverage wcs (coverage_request bbox crs q) = inr resp →
      os_refuses env (CallOpen (os_path_join outpath name)) = Some e →
      guarded_fault env outpath bbox r url crs w e
  | fault_read wcs name q resp e :
      reaches_fetch env outpath url w wcs name →
      truediv env r (PyInt 3600) = inr q →
      getCoverage wcs (coverage_request bbox crs q) = inr resp →
      os_refuses env (CallOpen (os_path_join outpath name)) = None →
      read resp = inl e →
      guarded_fault env outpath bbox r url crs w e
  | fault_write wcs name q resp data e :
      reaches_fetch env outpath url w wcs name →
      truediv env r (PyInt 3600) = inr q →
      getCoverage wcs (coverage_request bbox crs q) = inr resp →
      os_refuses env (CallOpen (os_path_join outpath name)) = None →
      read resp = inr data →
      os_refuses env (CallWrite (os_path_join outpath name)) = Some e →
      guarded_fault env outpath bbox r url crs w e.

(** The events of a download that finds the file, and of one that fetches
    it. *)
Definition found_events (url p : string) : list Event :=
  [EvGetCapabilities url; EvPrint [PyStr p; PyStr " already exists"]].

Definition fetch_events (url p : string) (bbox crs q : PyVal) (data : list Byte.byte)
  : list Event :=
  [EvGetCapabilities url; EvGetCoverage (coverage_request bbox crs q); EvOpen p;
   EvWrite p data; EvPrint [PyStr "DEM downloaded to:"; PyStr p]].

(** A field of the coverage that the service lists under a key. *)
Definition layer_field (wcs : Wcs) (field : ContentMetadata → PyVal) (key : string) : PyVal :=
  match contents_lookup (contents wcs) key with
  | Some cm => field cm
  | None => PyNone
  end.

(** Closeness of two floats within a tolerance. *)
Definition within (tol a b : float) : bool :=
  PrimFloat.ltb (PrimFloat.abs (PrimFloat.sub a b)) tol.

(** Counting the coverage requests and the file writes among events. *)
Definition is_transfer (ev : Event) : bool :=
  match ev with
  | EvGetCoverage _ => true
  | _ => false
  end.

Definition is_file_change (ev : Event) : bool :=
  match ev with
  | EvOpen _ | EvWrite _ _ => true
  | _ => false
  end.

Definition transfers (evs : list Event) : nat := length (filter is_transfer evs).

Definition file_changes (evs : list Event) : nat := length (filter is_file_change evs).

(** ** plot_raster, test_getwcs_dem *)

(** [os.fspath(v)], which [os.path.basename] and [rasterio.open] apply to
    their argument first: of the values here only a [str] is a path. *)
Definition os_fspath (v : PyVal) : M string :=
  match v with
  | PyStr s => ret s
  | _ => raise TypeError
  end.

Section Script.

Context (env : Env).

(** [rasterio.open(path)] and [show(data)]: the viewer, which may refuse the
    files it finds. *)
Context (rasterio_show : string → gmap string node → option exn).

Definition plot_raster (infname : PyVal) : M unit :=
  path <- os_fspath infname;;
  fun w =>
    match rasterio_show path (files w) with
    | Some e => (inl e, w)
    | None => (inr tt, w)
    end.

Definition test_getwcs_dem (outpath : string) : M unit :=
  let bbox := PyTuple [PyInt 114; PyInt (-44); PyFloat 153.9; PyInt (-11)] in
  let resolution := PyInt 100 in
  let url := "https://services.ga.gov.au/site_9/services/DEM_SRTM_1Second_Hydro_Enforced/MapServer/WCSServer?request=GetCapabilities&service=WCS" in
  let crs := PyStr "EPSG:4326" in
  capabilities <- get_capabilities env url;;
  print [PyStr "Retrieving data from Geoscience Australia DEM 1 arc second grid..."];;;
  outfname <- getwcs_dem env outpath bbox resolution url crs;;
  print [PyStr "Convert to slope and aspect..."];;;
  (fname_dem <- os_fspath outfname;; dem2slope env fname_dem);;;
  (fname_dem <- os_fspath outfname;; dem2aspect env fname_dem);;;
  plot_raster outfname.

End Script.

(** A viewer that shows whatever file exists. *)
Definition sample_viewer (path : string) (fs : gmap string node) : option exn :=
  match fs !! path with
  | Some (File _) => None
  | _ => Some RuntimeError
  end.

(** Events that only write to the terminal. *)
Definition is_print (ev : Event) : bool :=
  match ev with
  | EvPrint _ => true
  | _ => false
  end.

Definition is_query (ev : Event) : bool :=
  match ev with
  | EvGetCapabilities _ => true
  | _ => false
  end.

(** * Properties *)

(** ** Running the functions on the sample service *)

Example basename_ex : os_path_basename "out/dem.tif" = "dem.tif".
Proof. reflexivity. Qed.

Example dirname_ex : os_path_dirname "/a/b//dem.tif" = "/a/b".
Proof. reflexivity. Qed.

Example dirname_root_ex : os_path_dirname "//dem.tif" = "//".
Proof. reflexivity. Qed.

Example join_ex : os_path_join "./test_DEM/" "x.tif" = "./test_DEM/x.tif".
Proof. reflexivity. Qed.

Example strftime_ex : strftime_Ymd {| year := 2022; month := 3; day := 9 |} = "2022-03-09".
Proof. reflexivity. Qed.

Example getwcs_dem_ex :
  fst (getwcs_dem (sample_env (PyStr "DEM 1 Second Grid")) "./test_DEM/" sample_bbox
         (PyInt 100) sample_url (PyStr "EPSG:4326") empty_world)
  = inr (PyStr "./test_DEM/DEM_1_Second_Grid_2022-03-09.tif").
Proof. vm_compute. reflexivity. Qed.

Example getwcs_dem_offline_ex :
  fst (getwcs_dem offline_env "./test_DEM/" sample_bbox
         (PyInt 100) sample_url (PyStr "EPSG:4326") empty_world)
  = inr (PyBool false).
Proof. vm_compute. reflexivity. Qed.

Example get_capabilities_ex :
  fst (get_capabilities survey_env sample_url empty_world)
  = inr (["1"; "2"],
         [PyStr "DEM 1 Second Grid"; PyStr "DEM Smoothed"],
         [PyStr "Hydrologically enforced DEM"; PyNone],
         [PyTuple [PyFloat 113; PyFloat (-44); PyFloat 154; PyFloat (-10)]; PyNone]).
Proof. vm_compute. reflexivity. Qed.

Example parse_iso_date_ex :
  parse_iso_date "2022-03-09" = Some {| year := 2022; month := 3; day := 9 |}.
Proof. reflexivity. Qed.

(** ** get_metadict *)

(** C7, counterexample: the bounding box of the record is not the list
    [112.9999, -44.0001, 153.9999, -10.0001]. *)
Lemma get_metadict_bbox_not_rounded :
  get_metadict !! "bbox"
  ≠ Some (PyList [PyFloat 112.9999; PyFloat (-44.0001); PyFloat 153.9999; PyFloat (-10.0001)]).
Proof.
  intros H.
  assert (E : match get_metadict !! "bbox" with
              | Some (PyList (PyFloat west :: _)) => PrimFloat.eqb west 112.9999
              | _ => true
              end = true)
    by (rewrite H; reflexivity).
  vm_compute in E. discriminate E.
Qed.

(** C7 (amended): [get_metadict] takes no input and is the constant record
    whose CRS is EPSG:4326, whose native resolution is 1 arc-second, and whose
    bounding box is [112.99986111100009, -44.0001388895483, 153.9998611116614,
    -10.000138888999906]; each coordinate is within 0.00005 of
    [112.9999, -44.0001, 153.9999, -10.0001], the same box to four decimals. *)
Theorem get_metadict_record :
  get_metadict !! "crs" = Some (PyStr "EPSG:4326")
  ∧ get_metadict !! "resolution_arcsec" = Some (PyInt 1)
  ∧ get_metadict !! "bbox"
    = Some (PyList [PyFloat 112.99986111100009; PyFloat (-44.0001388895483);
                    PyFloat 153.9998611116614; PyFloat (-10.000138888999906)])
  ∧ within 0.00005 112.99986111100009 112.9999 = true
  ∧ within 0.00005 (-44.0001388895483) (-44.0001) = true
  ∧ within 0.00005 153.9998611116614 153.9999 = true
  ∧ within 0.00005 (-10.000138888999906) (-10.0001) = true.
Proof. repeat split; vm_compute; reflexivity. Qed.

(** ** The output file name *)

Lemma replace_space_underscore (s : string) :
  replace_char " "%char "_" s = spaces_to_underscores s.
Proof.
  induction s as [|c rest IH]; simpl; [reflexivity|].
  rewrite IH. destruct (Ascii.eqb c " "); reflexivity.
Qed.

Lemma digit_value_digit (n : Z) : digit_value (digit n) = Some (n mod 10)%Z.
Proof.
  unfold digit_value, digit.
  assert (Hlt : (0 ≤ n mod 10 < 10)%Z) by (apply Z.mod_pos_bound; lia).
  rewrite N_ascii_embedding by lia.
  rewrite Z2N.id by lia.
  replace (48 <=? 48 + n mod 10)%Z with true by (symmetry; apply Z.leb_le; lia).
  replace (48 + n mod 10 <=? 57)%Z with true by (symmetry; apply Z.leb_le; lia).
  cbn [andb]. f_equal. lia.
Qed.

Lemma two_digits_value (n : Z) :
  (0 ≤ n < 100)%Z → digits_value 0 (list_ascii_of_string (two_digits n)) = Some n.
Proof.
  intros Hn. unfold two_digits.
  cbn [list_ascii_of_string digits_value].
  rewrite !digit_value_digit. f_equal.
  Z.div_mod_to_equations. lia.
Qed.

Lemma four_digits_value (n : Z) :
  (0 ≤ n < 10000)%Z → digits_value 0 (list_ascii_of_string (four_digits n)) = Some n.
Proof.
  intros Hn. unfold four_digits, two_digits.
  cbn [list_ascii_of_string digits_value].
  rewrite !digit_value_digit. f_equal.
  Z.div_mod_to_equations. lia.
Qed.

Lemma parse_strftime (d : Date) :
  (0 ≤ year d < 10000)%Z → (0 ≤ month d < 100)%Z → (0 ≤ day d < 100)%Z →
  parse_iso_date (strftime_Ymd d) = Some d.
Proof.
  intros Hy Hm Hd. destruct d as [y m dd]; simpl in *.
  pose proof (four_digits_value y Hy) as Ey.
  pose proof (two_digits_value m Hm) as Em.
  pose proof (two_digits_value dd Hd) as Ed.
  cbv [four_digits two_digits list_ascii_of_string] in Ey, Em, Ed.
  cbv [parse_iso_date strftime_Ymd four_digits two_digits String.append
       list_ascii_of_string year month day].
  rewrite Ey, Em, Ed. reflexivity.
Qed.

(** C3: for a layer title [t] and a UTC date [d], the file name of line 162 is
    [t] with every space turned into an underscore, then an underscore, then
    ten characters that read back as [d] in the form YYYY-MM-DD, then [.tif].
    The name is a function of [t] and [d] alone. *)
Theorem fname_out_spec (t : string) (d : Date) :
  valid_date d →
  ∃ iso : string,
    fname_out (PyStr t) (strftime_Ymd d)
    = inr (spaces_to_underscores t +:+ "_" +:+ iso +:+ ".tif")
    ∧ String.length iso = 10
    ∧ parse_iso_date iso = Some d.
Proof.
  intros (Hy & Hm & Hd).
  exists (strftime_Ymd d). split; [|split].
  - unfold fname_out, str_replace. rewrite replace_space_underscore. reflexivity.
  - reflexivity.
  - apply parse_strftime; lia.
Qed.

Lemma fname_out_spec_witness :
  ∃ iso : string,
    fname_out (PyStr "DEM 1 Second Grid") (strftime_Ymd {| year := 2022; month := 3; day := 9 |})
    = inr (spaces_to_underscores "DEM 1 Second Grid" +:+ "_" +:+ iso +:+ ".tif")
    ∧ String.length iso = 10
    ∧ parse_iso_date iso = Some {| year := 2022; month := 3; day := 9 |}.
Proof.
  apply (fname_out_spec "DEM 1 Second Grid" {| year := 2022; month := 3; day := 9 |}).
  unfold valid_date; simpl; lia.
Defined.

(** ** Facts about strings and POSIX paths *)

Module StrFacts.

Lemma str_app_nil_l (t : string) : "" +:+ t = t.
Proof. reflexivity. Qed.

Lemma str_app_cons (c : ascii) (s t : string) : String c s +:+ t = String c (s +:+ t).
Proof. reflexivity. Qed.

Lemma str_app_assoc (s t u : string) : (s +:+ t) +:+ u = s +:+ (t +:+ u).
Proof.
  induction s as [|c s IH]; [reflexivity|].
  rewrite !str_app_cons. f_equal. exact IH.
Qed.

Lemma str_length_app (s t : string) :
  String.length (s +:+ t) = (String.length s + String.length t)%nat.
Proof.
  induction s as [|c s IH]; [reflexivity|].
  rewrite str_app_cons. cbn [String.length]. rewrite IH. reflexivity.
Qed.

Lemma slice_from_app (s t : string) : slice_from (String.length s) (s +:+ t) = t.
Proof.
  induction s as [|c s IH]; [destruct t; reflexivity|].
  rewrite str_app_cons. exact IH.
Qed.

Lemma slice_to_app (s t : string) : slice_to (String.length s) (s +:+ t) = s.
Proof.
  induction s as [|c s IH]; [destruct t; reflexivity|].
  rewrite str_app_cons. cbn [String.length slice_to]. f_equal. exact IH.
Qed.



End StrFacts.

Module PathFacts.
Import StrFacts.

Lemma rfind_no_sep (f : string) : has_sep f = false → rfind_sep_next f = 0%nat.
Proof.
  induction f as [|c f IH]; [reflexivity|].
  cbn [has_sep rfind_sep_next]. intros [Hc Hf]%orb_false_elim.
  rewrite (IH Hf), Hc. reflexivity.
Qed.

Lemma rfind_dir_file (X f : string) :
  has_sep f = false → rfind_sep_next (X +:+ "/" +:+ f) = S (String.length X).
Proof.
  intros Hf. induction X as [|c X IH].
  - rewrite str_app_nil_l, str_app_cons, str_app_nil_l. cbn [rfind_sep_next String.length].
    rewrite (rfind_no_sep f Hf). reflexivity.
  - rewrite str_app_cons. cbn [rfind_sep_next String.length]. rewrite IH. reflexivity.
Qed.

Lemma basename_dir_file (X f : string) :
  has_sep f = false → os_path_basename (X +:+ "/" +:+ f) = f.
Proof.
  intros Hf. unfold os_path_basename. rewrite (rfind_dir_file X f Hf).
  rewrite <- str_app_assoc.
  replace (S (String.length X)) with (String.length (X +:+ "/"))
    by (rewrite str_length_app; cbn [String.length]; lia).
  apply slice_from_app.
Qed.

Lemma head_dir_file (X f : string) :
  has_sep f = false →
  slice_to (rfind_sep_next (X +:+ "/" +:+ f)) (X +:+ "/" +:+ f) = X +:+ "/".
Proof.
  intros Hf. rewrite (rfind_dir_file X f Hf), <- str_app_assoc.
  replace (S (String.length X)) with (String.length (X +:+ "/"))
    by (rewrite str_length_app; cbn [String.length]; lia).
  apply slice_to_app.
Qed.

Lemma all_sep_snoc (X : string) : all_sep (X +:+ "/") = all_sep X.
Proof.
  induction X as [|c X IH]; [reflexivity|].
  rewrite str_app_cons. cbn [all_sep]. rewrite IH. reflexivity.
Qed.

Lemma rstrip_snoc (X : string) : rstrip_sep (X +:+ "/") = rstrip_sep X.
Proof.
  induction X as [|c X IH]; [reflexivity|].
  rewrite str_app_cons. cbn [rstrip_sep]. rewrite IH. reflexivity.
Qed.

Lemma endswith_sep_snoc (X : string) : endswith_sep (X +:+ "/") = true.
Proof.
  induction X as [|c X IH]; [reflexivity|].
  rewrite str_app_cons. cbn [endswith_sep].
  destruct (X +:+ "/") eqn:E; [destruct X; discriminate E | exact IH].
Qed.

Lemma rstrip_empty_iff (X : string) : rstrip_sep X = "" ↔ all_sep X = true.
Proof.
  induction X as [|c X IH]; [split; reflexivity|].
  cbn [rstrip_sep all_sep].
  destruct (rstrip_sep X) eqn:E.
  - destruct (is_sep c); cbn [andb].
    + split; intros _; [apply IH|]; reflexivity.
    + split; discriminate.
  - split; [discriminate|].
    intros [_ HX]%andb_true_iff. apply IH in HX. discriminate HX.
Qed.

Lemma endswith_sep_rstrip (X : string) : endswith_sep (rstrip_sep X) = false.
Proof.
  induction X as [|c X IH]; [reflexivity|].
  cbn [rstrip_sep].
  destruct (rstrip_sep X) eqn:E.
  - destruct (is_sep c) eqn:Hc; [reflexivity|]. cbn [endswith_sep]. exact Hc.
  - cbn [endswith_sep]. exact IH.
Qed.

Lemma rstrip_id (X : string) : endswith_sep X = false → rstrip_sep X = X.
Proof.
  induction X as [|c X IH]; [reflexivity|].
  cbn [endswith_sep rstrip_sep]. destruct X as [|c' X'].
  - intros ->. reflexivity.
  - intros H. rewrite (IH H). reflexivity.
Qed.

Lemma dirname_dir_file (X f : string) :
  has_sep f = false → os_path_dirname (X +:+ "/" +:+ f) = dir_part X.
Proof.
  intros Hf. unfold os_path_dirname, dir_part.
  rewrite (head_dir_file X f Hf), all_sep_snoc, rstrip_snoc.
  destruct (all_sep X); [rewrite andb_false_r|]; [reflexivity|].
  destruct X; reflexivity.
Qed.

Lemma join_relative (a b : string) :
  startswith_sep b = false →
  os_path_join a b
  = if String.eqb a "" || endswith_sep a then a +:+ b else a +:+ "/" +:+ b.
Proof. intros Hb. unfold os_path_join. rewrite Hb. reflexivity. Qed.

Lemma join_dir_part (X b : string) :
  startswith_sep b = false →
  os_path_join (dir_part X) b
  = (if all_sep X then X else rstrip_sep X) +:+ "/" +:+ b.
Proof.
  intros Hb. rewrite (join_relative _ _ Hb). unfold dir_part.
  destruct (all_sep X) eqn:HX.
  - rewrite endswith_sep_snoc, orb_true_r. apply str_app_assoc.
  - rewrite endswith_sep_rstrip, orb_false_r.
    destruct (String.eqb_spec (rstrip_sep X) "") as [E|_]; [|reflexivity].
    apply rstrip_empty_iff in E. congruence.
Qed.

Lemma dir_kept (X : string) :
  endswith_sep X = false → (if all_sep X then X else rstrip_sep X) = X.
Proof. intros H. destruct (all_sep X); [reflexivity | apply rstrip_id, H]. Qed.


End PathFacts.

(** ** The steps of getwcs_dem *)

Module Download.
Import StrFacts PathFacts.

Ltac run :=
  cbv [download connect wcs_getitem wcs_getCoverage utcnow_Ymd os_path_exists
       open_wb file_write bind ret raise lift emit print].

Lemma metadict_resolution : dict_getitem get_metadict "resolution_arcsec" = inr (PyInt 1).
Proof. vm_compute. reflexivity. Qed.

(** Lines 153-182 as three stages: the resolution, the directory (outside the
    [try]), and the guarded download. *)
Lemma getwcs_dem_stages env outpath bbox r url crs w :
  getwcs_dem env outpath bbox r url crs w
  = match os_makedirs env outpath w with
    | (inl e, w1) => (inl e, w1)
    | (inr _, w1) =>
        match download env outpath bbox (effective_resolution r) url crs w1 with
        | (inl _, w2) =>
            (inr (PyBool false),
             {| files := files w2;
                trace := trace w2 ++ [EvPrint [PyStr "Download failed"]] |})
        | (inr p, w2) => (inr (PyStr p), w2)
        end
    end.
Proof.
  unfold getwcs_dem.
  assert (Hres : (match r with
                  | PyNone => lift (dict_getitem get_metadict "resolution_arcsec")
                  | _ => ret r
                  end) w = (inr (effective_resolution r), w)).
  { destruct r; reflexivity. }
  unfold bind at 1. rewrite Hres.
  unfold bind at 1. destruct (os_makedirs env outpath w) as [[e|[]] w1]; [reflexivity|].
  unfold try_except, bind at 1.
  destruct (download env outpath bbox (effective_resolution r) url crs w1) as [[e|p] w2];
    reflexivity.
Qed.

(** *** One step at a time *)

Lemma bind_returns {A B} (m : M A) (k : A → M B) w b w2 :
  bind m k w = (inr b, w2) → ∃ a w1, m w = (inr a, w1) ∧ k a w1 = (inr b, w2).
Proof.
  unfold bind. destruct (m w) as [[e|a] w1]; [discriminate|]. eauto.
Qed.

Lemma ret_inv {A} (a b : A) w w1 : ret a w = (inr b, w1) → a = b ∧ w1 = w.
Proof. unfold ret. intros [= -> ->]. auto. Qed.

Lemma lift_inv {A} (r : exn + A) (a : A) w w1 :
  lift r w = (inr a, w1) → r = inr a ∧ w1 = w.
Proof. unfold lift. intros [= -> ->]. auto. Qed.

Lemma print_inv line u w w1 :
  print line w = (inr u, w1)
  → w1 = {| files := files w; trace := trace w ++ [EvPrint line] |}.
Proof. unfold print, emit. intros [= _ <-]. reflexivity. Qed.

Lemma connect_inv env url wcs w w1 :
  connect env url w = (inr wcs, w1) →
  WebCoverageService env url "1.0.0" 300 = inr wcs
  ∧ w1 = {| files := files w; trace := trace w ++ [EvGetCapabilities url] |}.
Proof.
  unfold connect, bind, emit, lift. intros [= -> <-]. auto.
Qed.

Lemma wcs_getitem_inv wcs name cm w w1 :
  wcs_getitem wcs name w = (inr cm, w1) →
  contents_lookup (contents wcs) name = Some cm ∧ w1 = w.
Proof.
  unfold wcs_getitem. destruct (contents_lookup (contents wcs) name) as [cm'|].
  - intros [-> ->]%ret_inv. auto.
  - discriminate.
Qed.

Lemma exists_inv path found w w1 :
  os_path_exists path w = (inr found, w1) →
  found = bool_decide (is_Some (files w !! path)) ∧ w1 = w.
Proof. unfold os_path_exists. intros [= <- <-]. auto. Qed.

Lemma getCoverage_inv wcs req resp w w1 :
  wcs_getCoverage wcs req w = (inr resp, w1) →
  getCoverage wcs req = inr resp
  ∧ w1 = {| files := files w; trace := trace w ++ [EvGetCoverage req] |}.
Proof.
  unfold wcs_getCoverage, bind, emit, lift. intros [= -> <-]. auto.
Qed.

Lemma open_inv env path f w w1 :
  open_wb env path w = (inr f, w1) →
  f = path
  ∧ os_refuses env (CallOpen path) = None
  ∧ w1 = {| files := <[path := File []]> (files w); trace := trace w ++ [EvOpen path] |}.
Proof.
  unfold open_wb. destruct (os_refuses env (CallOpen path)); [discriminate|].
  destruct (files w !! path) as [[content|]|]; intros [= <- <-]; auto.
Qed.

Lemma write_inv env f data u w w1 :
  file_write env f data w = (inr u, w1) →
  os_refuses env (CallWrite f) = None
  ∧ w1 = {| files := <[f := File data]> (files w); trace := trace w ++ [EvWrite f data] |}.
Proof.
  unfold file_write. destruct (os_refuses env (CallWrite f)); [discriminate|].
  intros [= _ <-]. auto.
Qed.

(** A file found at the computed path: no request, no write. *)
Lemma download_found env outpath bbox r url crs w wcs cm name :
  WebCoverageService env url "1.0.0" 300 = inr wcs →
  contents_lookup (contents wcs) "1" = Some cm →
  fname_out (title cm) (strftime_Ymd (utc_today env)) = inr name →
  is_Some (files w !! os_path_join outpath name) →
  download env outpath bbox r url crs w
  = (inr (os_path_join outpath name),
     {| files := files w;
        trace := trace w ++ found_events url (os_path_join outpath name) |}).
Proof.
  intros Hwcs Hcm Hname Hfound. run.
  rewrite Hwcs, Hcm, Hname. cbn [files trace].
  rewrite bool_decide_eq_true_2 by exact Hfound.
  cbn [files trace]. rewrite <- app_assoc. reflexivity.
Qed.

(** What a returning download has done. *)
Lemma download_returns_inv env outpath bbox r url crs w p w' :
  download env outpath bbox r url crs w = (inr p, w') →
  ∃ wcs cm name,
    WebCoverageService env url "1.0.0" 300 = inr wcs
    ∧ contents_lookup (contents wcs) "1" = Some cm
    ∧ fname_out (title cm) (strftime_Ymd (utc_today env)) = inr name
    ∧ p = os_path_join outpath name
    ∧ ((is_Some (files w !! p)
        ∧ files w' = files w
        ∧ trace w' = trace w ++ found_events url p)
       ∨ (files w !! p = None
          ∧ ∃ q data,
              truediv env r (PyInt 3600) = inr q
              ∧ files w' = <[p := File data]> (<[p := File []]> (files w))
              ∧ trace w' = trace w ++ fetch_events url p bbox crs q data)).
Proof.
  unfold download. intros H.
  apply bind_returns in H as (wcs & w1 & Hwcs & H).
  apply connect_inv in Hwcs as [Hwcs ->].
  apply bind_returns in H as (cm & w2 & Hcm & H).
  apply wcs_getitem_inv in Hcm as [Hcm ->].
  apply bind_returns in H as (date & w2 & [<- ->]%ret_inv & H).
  apply bind_returns in H as (name & w2 & [Hname ->]%lift_inv & H).
  apply bind_returns in H as (found & w2 & [-> ->]%exists_inv & H).
  apply bind_returns in H as ([] & w2 & Hbranch & [<- ->]%ret_inv).
  exists wcs, cm, name. do 4 (split; [done|]).
  cbn [files] in Hbranch.
  set (path := os_path_join outpath name) in *.
  destruct (bool_decide (is_Some (files w !! path))) eqn:Hfound.
  - apply bool_decide_eq_true_1 in Hfound.
    apply print_inv in Hbranch as ->. left.
    cbn [files trace]. rewrite <- app_assoc. auto.
  - apply bool_decide_eq_false_1 in Hfound.
    assert (Hnone : files w !! path = None)
      by (destruct (files w !! path) eqn:E; [exfalso; apply Hfound; eauto | reflexivity]).
    apply bind_returns in Hbranch as (q & w3 & [Hq ->]%lift_inv & H).
    apply bind_returns in H as (q' & w3 & [Hq' ->]%lift_inv & H).
    assert (q' = q) as -> by congruence.
    apply bind_returns in H as (resp & w3 & [Hresp ->]%getCoverage_inv & H).
    apply bind_returns in H as (f & w3 & (-> & _ & ->)%open_inv & H).
    apply bind_returns in H as (data & w3 & [Hdata ->]%lift_inv & H).
    apply bind_returns in H as ([] & w3 & [_ ->]%write_inv & H).
    apply print_inv in H as ->. right.
    split; [exact Hnone|]. exists q, data.
    cbn [files trace]. rewrite <- !app_assoc. auto.
Qed.


Lemma makedirs_ok_inv env outpath w w1 :
  os_makedirs env outpath w = (inr tt, w1) →
  os_refuses env (CallMakedirs outpath) = None
  ∧ outpath ≠ ""
  ∧ files w1 !! outpath = Some Dir
  ∧ trace w1 = trace w
  ∧ (∀ p, p ≠ outpath → files w1 !! p = files w !! p).
Proof.
  unfold os_makedirs. intros H.
  destruct (os_refuses env (CallMakedirs outpath)); [discriminate H|].
  destruct (String.eqb_spec outpath "") as [|Hne]; [discriminate H|].
  destruct (files w !! outpath) as [[content|]|] eqn:E; simplify_eq/=.
  - auto.
  - split_and!; try done.
    + apply lookup_insert_eq.
    + intros p Hp. apply lookup_insert_ne. congruence.
Qed.


Lemma makedirs_existing env outpath w :
  os_refuses env (CallMakedirs outpath) = None →
  outpath ≠ "" →
  files w !! outpath = Some Dir →
  os_makedirs env outpath w = (inr tt, w).
Proof.
  intros Hok Hne Hdir. unfold os_makedirs. rewrite Hok, Hdir.
  destruct (String.eqb_spec outpath ""); [contradiction | reflexivity].
Qed.

End Download.

Import StrFacts PathFacts Download.

(** ** getwcs_dem: which exceptions are caught *)

(** C1, counterexample: an output directory that names an existing regular
    file. [os.makedirs] raises before the [try] block is entered, and the
    exception leaves [getwcs_dem]. *)
Lemma getwcs_dem_makedirs_raises :
  fst (getwcs_dem (sample_env (PyStr "DEM 1 Second Grid")) "dem.tif" sample_bbox
         (PyInt 100) sample_url (PyStr "EPSG:4326")
         {| files := {["dem.tif" := File sample_body]}; trace := [] |})
  = inl FileExistsError.
Proof. vm_compute. reflexivity. Qed.

(** The guarded faults one by one: each makes the download raise. *)
Lemma download_connect_fault env outpath bbox r url crs w e :
  WebCoverageService env url "1.0.0" 300 = inl e →
  fst (download env outpath bbox r url crs w) = inl e.
Proof. intros H. run. rewrite H. reflexivity. Qed.

Lemma download_layer_fault env outpath bbox r url crs w wcs :
  WebCoverageService env url "1.0.0" 300 = inr wcs →
  contents_lookup (contents wcs) "1" = None →
  fst (download env outpath bbox r url crs w) = inl (KeyError "1").
Proof. intros H1 H2. run. rewrite H1, H2. reflexivity. Qed.

Lemma download_title_fault env outpath bbox r url crs w wcs cm e :
  WebCoverageService env url "1.0.0" 300 = inr wcs →
  contents_lookup (contents wcs) "1" = Some cm →
  fname_out (title cm) (strftime_Ymd (utc_today env)) = inl e →
  fst (download env outpath bbox r url crs w) = inl e.
Proof. intros H1 H2 H3. run. rewrite H1, H2, H3. reflexivity. Qed.

Section Fetch.

Context (env : Env) (outpath : string) (bbox r : PyVal) (url : string) (crs : PyVal).
Context (w : World) (wcs : Wcs) (cm : ContentMetadata) (name : string).
Hypothesis Hwcs : WebCoverageService env url "1.0.0" 300 = inr wcs.
Hypothesis Hcm : contents_lookup (contents wcs) "1" = Some cm.
Hypothesis Hname : fname_out (title cm) (strftime_Ymd (utc_today env)) = inr name.
Hypothesis Hnew : files w !! os_path_join outpath name = None.

Ltac fetch :=
  run; rewrite Hwcs, Hcm, Hname; cbn [files trace];
  rewrite bool_decide_eq_false_2 by (rewrite Hnew; apply is_Some_None).

Lemma download_division_fault e :
  truediv env r (PyInt 3600) = inl e →
  fst (download env outpath bbox r url crs w) = inl e.
Proof. intros H. fetch. rewrite H. reflexivity. Qed.

Lemma download_request_fault q e :
  truediv env r (PyInt 3600) = inr q →
  getCoverage wcs (coverage_request bbox crs q) = inl e →
  fst (download env outpath bbox r url crs w) = inl e.
Proof.
  intros H1 H2. fetch. rewrite H1. unfold coverage_request in H2.
  rewrite H2. reflexivity.
Qed.

Lemma download_open_fault q resp e :
  truediv env r (PyInt 3600) = inr q →
  getCoverage wcs (coverage_request bbox crs q) = inr resp →
  os_refuses env (CallOpen (os_path_join outpath name)) = Some e →
  fst (download env outpath bbox r url crs w) = inl e.
Proof.
  intros H1 H2 H3. fetch. rewrite H1. unfold coverage_request in H2.
  rewrite H2, H3. reflexivity.
Qed.

Lemma download_read_fault q resp e :
  truediv env r (PyInt 3600) = inr q →
  getCoverage wcs (coverage_request bbox crs q) = inr resp →
  os_refuses env (CallOpen (os_path_join outpath name)) = None →
  read resp = inl e →
  fst (download env outpath bbox r url crs w) = inl e.
Proof.
  intros H1 H2 H3 H4. fetch. rewrite H1. unfold coverage_request in H2.
  rewrite H2, H3. cbn [files trace]. rewrite Hnew, H4. reflexivity.
Qed.

Lemma download_write_fault q resp data e :
  truediv env r (PyInt 3600) = inr q →
  getCoverage wcs (coverage_request bbox crs q) = inr resp →
  os_refuses env (CallOpen (os_path_join outpath name)) = None →
  read resp = inr data →
  os_refuses env (CallWrite (os_path_join outpath name)) = Some e →
  fst (download env outpath bbox r url crs w) = inl e.
Proof.
  intros H1 H2 H3 H4 H5. fetch. rewrite H1. unfold coverage_request in H2.
  rewrite H2, H3. cbn [files trace]. rewrite Hnew, H4, H5. reflexivity.
Qed.

End Fetch.

Lemma guarded_fault_raises env outpath bbox r url crs w e :
  guarded_fault env outpath bbox r url crs w e →
  fst (download env outpath bbox r url crs w) = inl e.
Proof.
  intros Hfault.
  destruct Hfault as
    [ e H | wcs H1 H2 | wcs cm e H1 H2 H3
    | wcs name e (H1 & (cm & H2 & H3) & H4) Hq
    | wcs name q e (H1 & (cm & H2 & H3) & H4) Hq Hreq
    | wcs name q resp e (H1 & (cm & H2 & H3) & H4) Hq Hreq Hopen
    | wcs name q resp e (H1 & (cm & H2 & H3) & H4) Hq Hreq Hopen Hread
    | wcs name q resp data e (H1 & (cm & H2 & H3) & H4) Hq Hreq Hopen Hread Hwrite ].
  - eapply download_connect_fault; eassumption.
  - eapply download_layer_fault; eassumption.
  - eapply download_title_fault; eassumption.
  - eapply download_division_fault; eassumption.
  - eapply download_request_fault; eassumption.
  - eapply download_open_fault; eassumption.
  - eapply download_read_fault; eassumption.
  - eapply download_write_fault; eassumption.
Qed.

(** The list of faults is complete: a download that raises met one. *)
Lemma download_raises_inv env outpath bbox r url crs w e w' :
  download env outpath bbox r url crs w = (inl e, w') →
  guarded_fault env outpath bbox r url crs w e.
Proof.
  run. intros H.
  destruct (WebCoverageService env url "1.0.0" 300) as [e0|wcs] eqn:Hwcs.
  { injection H as <- _. apply fault_connect, Hwcs. }
  destruct (contents_lookup (contents wcs) "1") as [cm|] eqn:Hcm.
  2: { injection H as <- _. eapply fault_layer; eassumption. }
  destruct (fname_out (title cm) (strftime_Ymd (utc_today env))) as [e0|name] eqn:Hname.
  { injection H as <- _. eapply fault_title; eassumption. }
  cbn [files trace] in H.
  set (path := os_path_join outpath name) in *.
  destruct (bool_decide (is_Some (files w !! path))) eqn:Hfound; [discriminate H|].
  apply bool_decide_eq_false_1 in Hfound.
  assert (Hnone : files w !! path = None)
    by (destruct (files w !! path) eqn:E; [exfalso; apply Hfound; eauto | reflexivity]).
  assert (Hreach : reaches_fetch env outpath url w wcs name)
    by (split_and!; eauto).
  destruct (truediv env r (PyInt 3600)) as [e0|q] eqn:Hq.
  { injection H as <- _. eapply fault_division; eassumption. }
  cbn [files trace] in H.
  destruct (getCoverage wcs _) as [e0|resp] eqn:Hreq.
  { injection H as <- _. eapply fault_request; eassumption. }
  destruct (os_refuses env (CallOpen path)) as [e0|] eqn:Hopen.
  { injection H as <- _. eapply fault_open; eassumption. }
  cbn [files trace] in H. rewrite Hnone in H.
  destruct (read resp) as [e0|data] eqn:Hread.
  { injection H as <- _. eapply fault_read; eassumption. }
  destruct (os_refuses env (CallWrite path)) as [e0|] eqn:Hwrite.
  { injection H as <- _. eapply fault_write; eassumption. }
  discriminate H.
Qed.

(** C1 (amended): an exception raised by [os.makedirs] is not caught and
    leaves [getwcs_dem]. Once the directory is there, [getwcs_dem] never
    raises, and it returns [False] exactly when the guarded part met a fault:
    in connecting, in resolving the title of layer 1, in building the name,
    in the division or the coverage request, or in opening, reading or
    writing the file. *)
Theorem getwcs_dem_exceptions env outpath bbox resolution url crs w :
  (∀ e w1, os_makedirs env outpath w = (inl e, w1) →
     getwcs_dem env outpath bbox resolution url crs w = (inl e, w1))
  ∧ (∀ w1, os_makedirs env outpath w = (inr tt, w1) →
       (∃ v, fst (getwcs_dem env outpath bbox resolution url crs w) = inr v)
       ∧ (fst (getwcs_dem env outpath bbox resolution url crs w) = inr (PyBool false)
          ↔ ∃ e, guarded_fault env outpath bbox (effective_resolution resolution)
                   url crs w1 e)).
Proof.
  rewrite getwcs_dem_stages. split.
  - intros e w1 ->. reflexivity.
  - intros w1 ->.
    destruct (download env outpath bbox (effective_resolution resolution) url crs w1)
      as [[e|p] w2] eqn:Hdl; cbn [fst].
    + split; [eauto|]. split; [|reflexivity].
      intros _. exists e. exact (download_raises_inv _ _ _ _ _ _ _ _ _ Hdl).
    + split; [eauto|]. split; [discriminate|].
      intros [e Hfault]. apply guarded_fault_raises in Hfault.
      rewrite Hdl in Hfault. discriminate Hfault.
Qed.

(** ** getwcs_dem: the resolution *)

(** C5: with [resolution=None] the call does exactly what it does with
    [resolution=1], the value of [get_metadict()['resolution_arcsec']]: the
    same result, the same files and the same trace, hence the same coverage
    request. *)
Theorem getwcs_dem_default_resolution env outpath bbox url crs w :
  dict_getitem get_metadict "resolution_arcsec" = inr (PyInt 1)
  ∧ getwcs_dem env outpath bbox PyNone url crs w
    = getwcs_dem env outpath bbox (PyInt 1) url crs w.
Proof.
  split; [exact metadict_resolution|].
  unfold getwcs_dem, bind at 1, lift. rewrite metadict_resolution. reflexivity.
Qed.



(** The run of the module's own test: one request, at 100/3600 degrees. *)
Example getwcs_dem_trace_ex :
  trace (snd (getwcs_dem (sample_env (PyStr "DEM 1 Second Grid")) "./test_DEM/" sample_bbox
                (PyInt 100) sample_url (PyStr "EPSG:4326") empty_world))
  = fetch_events sample_url "./test_DEM/DEM_1_Second_Grid_2022-03-09.tif" sample_bbox
      (PyStr "EPSG:4326") (PyFloat (PrimFloat.div 100 3600)) sample_body.
Proof. vm_compute. reflexivity. Qed.

(** ** getwcs_dem: running it twice *)

Lemma transfers_found url p : transfers (found_events url p) = 0%nat.
Proof. reflexivity. Qed.

Lemma file_changes_found url p : file_changes (found_events url p) = 0%nat.
Proof. reflexivity. Qed.

Lemma transfers_fetch url p bbox crs q data :
  transfers (fetch_events url p bbox crs q data) = 1%nat.
Proof. reflexivity. Qed.



(** ** getwcs_dem: the returned path *)







(** ** dem2slope, dem2aspect *)

Lemma terrain_result env dest src mode label1 label2 w :
  fst ((DEMProcessing env dest src mode;;;
        print [PyStr label1; PyStr src; PyStr label2; PyStr dest];;;
        ret dest) w)
  = match gdal_DEMProcessing env dest src mode (files w) with
    | inl e => inl e
    | inr _ => inr dest
    end.
Proof.
  cbv [DEMProcessing bind print emit ret].
  destruct (gdal_DEMProcessing env dest src mode (files w)); reflexivity.
Qed.

(** C4, counterexample: a directory written with a trailing separator. The
    result has one separator where the input had two. *)
Lemma dem2slope_trailing_separator :
  fst (dem2slope (sample_env PyNone) ("a/" +:+ "/" +:+ "dem.tif")
         {| files := {["a//dem.tif" := File sample_body]}; trace := [] |})
  = inr "a/Slope_dem.tif"
  ∧ "a/Slope_dem.tif" ≠ "a/" +:+ "/" +:+ "Slope_" +:+ "dem.tif".
Proof. split; [vm_compute; reflexivity | discriminate]. Qed.

(** C4 (amended): for a directory [X] and a file name [f] (a name has no
    separator), [dem2slope("X/f")] hands [D/Slope_f] to the raster engine and
    returns it, and [dem2aspect("X/f")] does so with [D/Aspect_f], unless the
    engine raises; [D] is [X] without its trailing separators, or [X] itself
    when it consists of separators only. [D] is [X] whenever [X] does not end
    with a separator. *)
Theorem dem2slope_dem2aspect_names env (X f : string) w :
  has_sep f = false →
  let dem := X +:+ "/" +:+ f in
  let D := if all_sep X then X else rstrip_sep X in
  fst (dem2slope env dem w)
  = match gdal_DEMProcessing env (D +:+ "/" +:+ "Slope_" +:+ f) dem "slope" (files w) with
    | inl e => inl e
    | inr _ => inr (D +:+ "/" +:+ "Slope_" +:+ f)
    end
  ∧ fst (dem2aspect env dem w)
    = match gdal_DEMProcessing env (D +:+ "/" +:+ "Aspect_" +:+ f) dem "aspect" (files w) with
      | inl e => inl e
      | inr _ => inr (D +:+ "/" +:+ "Aspect_" +:+ f)
      end
  ∧ (endswith_sep X = false → D = X).
Proof.
  intros Hf dem D. unfold dem2slope, dem2aspect.
  rewrite !terrain_result.
  fold dem. unfold dem.
  rewrite (basename_dir_file X f Hf), (dirname_dir_file X f Hf).
  rewrite !join_dir_part by reflexivity.
  split_and!; [reflexivity | reflexivity | apply dir_kept].
Qed.

Lemma dem2slope_dem2aspect_names_witness :
  let env := sample_env PyNone in
  let w := {| files := {["./test_DEM/dem.tif" := File sample_body]}; trace := [] |} in
  fst (dem2slope env "./test_DEM/dem.tif" w) = inr "./test_DEM/Slope_dem.tif"
  ∧ fst (dem2aspect env "./test_DEM/dem.tif" w) = inr "./test_DEM/Aspect_dem.tif"
  ∧ (endswith_sep "./test_DEM" = false → "./test_DEM" = "./test_DEM").
Proof.
  intros env w.
  exact (dem2slope_dem2aspect_names env "./test_DEM" "dem.tif" w eq_refl).
Defined.

(** ** get_capabilities *)

Module Capabilities.

Lemma keys_lookup (content : list (string * ContentMetadata)) (k : string) :
  k ∈ contents_keys content → is_Some (contents_lookup content k).
Proof.
  unfold contents_keys. induction content as [|[k' cm] rest IH]; cbn [fmap list_fmap fst].
  - intros H. apply elem_of_nil in H. destruct H.
  - cbn [contents_lookup]. destruct (String.eqb_spec k' k) as [->|Hne]; [eauto|].
    intros [Heq|Hin]%elem_of_cons; [congruence | exact (IH Hin)].
Qed.

(** In a dictionary, where each key occurs once, looking the i-th key up
    gives the i-th entry. *)
Lemma lookup_nth (content : list (string * ContentMetadata)) (i : nat) k cm :
  NoDup (contents_keys content) →
  contents_keys content !! i = Some k →
  contents_lookup content k = Some cm →
  content !! i = Some (k, cm).
Proof.
  unfold contents_keys. revert i.
  induction content as [|[k' cm'] rest IH]; intros i Hnd Hi Hk; [destruct i; discriminate|].
  cbn [fmap list_fmap fst] in Hnd, Hi. apply NoDup_cons in Hnd as [Hfresh Hnd].
  cbn [contents_lookup] in Hk.
  destruct i as [|i]; cbn in Hi |- *.
  - injection Hi as ->. rewrite String.eqb_refl in Hk. congruence.
  - destruct (String.eqb_spec k' k) as [->|Hne].
    + exfalso. apply Hfresh. apply list_elem_of_lookup. eauto.
    + exact (IH i Hnd Hi Hk).
Qed.

(** One round of the loop appends one entry to each list. *)
Lemma row_appends wcs key cm tl dl bl w :
  contents_lookup (contents wcs) key = Some cm →
  ∃ w', capabilities_row wcs key (tl, dl, bl) w
        = (inr (tl ++ [title cm], dl ++ [abstract cm], bl ++ [boundingBoxWGS84 cm]), w')
        ∧ files w' = files w.
Proof.
  intros Hcm.
  cbv [capabilities_row wcs_getitem bind print emit ret]. rewrite Hcm.
  eexists. split; reflexivity.
Qed.

Lemma loop_appends wcs keys :
  (∀ k, k ∈ keys → is_Some (contents_lookup (contents wcs) k)) →
  ∀ tl dl bl w,
  ∃ w', for_each keys (capabilities_row wcs) (tl, dl, bl) w
        = (inr (tl ++ (layer_field wcs title <$> keys),
                dl ++ (layer_field wcs abstract <$> keys),
                bl ++ (layer_field wcs boundingBoxWGS84 <$> keys)), w')
        ∧ files w' = files w.
Proof.
  induction keys as [|key keys IH]; intros Hkeys tl dl bl w.
  - exists w. cbn [for_each fmap list_fmap]. rewrite !app_nil_r. split; reflexivity.
  - destruct (Hkeys key) as [cm Hcm]; [apply elem_of_cons; auto|].
    destruct (row_appends wcs key cm tl dl bl w Hcm) as (w1 & Hrow & Hfiles1).
    destruct (IH (λ k Hk, Hkeys k (list_elem_of_further _ _ _ Hk))
                 (tl ++ [title cm]) (dl ++ [abstract cm]) (bl ++ [boundingBoxWGS84 cm]) w1)
      as (w2 & Hrest & Hfiles2).
    exists w2. cbn [for_each]. unfold bind at 1. rewrite Hrow, Hrest.
    cbn [fmap list_fmap].
    assert (Hfield : ∀ field, layer_field wcs field key = field cm)
      by (intros field; unfold layer_field; rewrite Hcm; reflexivity).
    rewrite !Hfield, <- !app_assoc.
    split; [reflexivity | congruence].
Qed.

(** The whole function, when the service answers. *)
Lemma get_capabilities_returns env url wcs w :
  WebCoverageService env url "1.0.0" 300 = inr wcs →
  ∃ w', get_capabilities env url w
        = (inr (contents_keys (contents wcs),
                layer_field wcs title <$> contents_keys (contents wcs),
                layer_field wcs abstract <$> contents_keys (contents wcs),
                layer_field wcs boundingBoxWGS84 <$> contents_keys (contents wcs)), w')
        ∧ files w' = files w.
Proof.
  intros Hwcs.
  unfold get_capabilities, connect, lift.
  cbv [bind emit print ret]. rewrite Hwcs.
  match goal with
  | |- context [for_each _ _ _ ?w0] =>
      destruct (loop_appends wcs (contents_keys (contents wcs))
                  (keys_lookup (contents wcs)) [] [] [] w0) as (w' & Hloop & Hfiles)
  end.
  rewrite Hloop. exists w'. split; [reflexivity | exact Hfiles].
Qed.

Lemma get_capabilities_raises env url e w :
  WebCoverageService env url "1.0.0" 300 = inl e →
  fst (get_capabilities env url w) = inl e.
Proof.
  intros Hwcs. unfold get_capabilities, connect, lift.
  cbv [bind emit print ret]. rewrite Hwcs. reflexivity.
Qed.

End Capabilities.

Import Capabilities.

(** C8: when the service answers, [get_capabilities] returns its keys in the
    order of the capabilities document, and at every position [i] the title,
    description and bounding box are those of the coverage listed under the
    i-th key (the i-th entry itself, the keys of a dictionary being
    distinct). *)
Theorem get_capabilities_order env url wcs w :
  WebCoverageService env url "1.0.0" 300 = inr wcs →
  ∃ titles descriptions bboxs w',
    get_capabilities env url w
    = (inr (contents_keys (contents wcs), titles, descriptions, bboxs), w')
    ∧ ∀ (i : nat) (key : string),
        contents_keys (contents wcs) !! i = Some key →
        ∃ cm, contents_lookup (contents wcs) key = Some cm
              ∧ titles !! i = Some (title cm)
              ∧ descriptions !! i = Some (abstract cm)
              ∧ bboxs !! i = Some (boundingBoxWGS84 cm)
              ∧ (NoDup (contents_keys (contents wcs)) →
                 contents wcs !! i = Some (key, cm)).
Proof.
  intros Hwcs.
  destruct (get_capabilities_returns env url wcs w Hwcs) as (w' & Hrun & _).
  eexists _, _, _, w'. split; [exact Hrun|].
  intros i key Hi.
  destruct (keys_lookup (contents wcs) key) as [cm Hcm];
    [apply list_elem_of_lookup; eauto|].
  exists cm. rewrite !list_lookup_fmap, Hi. cbn [fmap option_fmap option_map].
  unfold layer_field. rewrite Hcm.
  split_and!; try reflexivity.
  intros Hnd. exact (lookup_nth _ _ _ _ Hnd Hi Hcm).
Qed.

Lemma get_capabilities_order_witness :
  ∃ titles descriptions bboxs w',
    get_capabilities survey_env sample_url empty_world
    = (inr (contents_keys (contents survey_wcs), titles, descriptions, bboxs), w')
    ∧ ∀ (i : nat) (key : string),
        contents_keys (contents survey_wcs) !! i = Some key →
        ∃ cm, contents_lookup (contents survey_wcs) key = Some cm
              ∧ titles !! i = Some (title cm)
              ∧ descriptions !! i = Some (abstract cm)
              ∧ bboxs !! i = Some (boundingBoxWGS84 cm)
              ∧ (NoDup (contents_keys (contents survey_wcs)) →
                 contents survey_wcs !! i = Some (key, cm)).
Proof.
  exact (get_capabilities_order survey_env sample_url survey_wcs empty_world eq_refl).
Defined.

(** C9: the four collections that [get_capabilities] returns have the same
    length, the number of coverages the service lists. *)
Theorem get_capabilities_lengths env url w keys titles descriptions bboxs w' :
  get_capabilities env url w = (inr (keys, titles, descriptions, bboxs), w') →
  ∃ wcs, WebCoverageService env url "1.0.0" 300 = inr wcs
    ∧ length keys = length (contents wcs)
    ∧ length titles = length keys
    ∧ length descriptions = length keys
    ∧ length bboxs = length keys.
Proof.
  intros Hrun.
  destruct (WebCoverageService env url "1.0.0" 300) as [e|wcs] eqn:Hwcs.
  - pose proof (get_capabilities_raises env url e w Hwcs) as Hraise.
    rewrite Hrun in Hraise. discriminate Hraise.
  - destruct (get_capabilities_returns env url wcs w Hwcs) as (w1 & Hret & _).
    rewrite Hrun in Hret. injection Hret as -> -> -> -> _.
    exists wcs. unfold contents_keys. rewrite !length_fmap. auto.
Qed.

Lemma get_capabilities_lengths_witness :
  ∃ wcs, WebCoverageService survey_env sample_url "1.0.0" 300 = inr wcs
    ∧ length ["1"; "2"] = length (contents wcs)
    ∧ length [PyStr "DEM 1 Second Grid"; PyStr "DEM Smoothed"] = length ["1"; "2"]
    ∧ length [PyStr "Hydrologically enforced DEM"; PyNone] = length ["1"; "2"]
    ∧ length [PyTuple [PyFloat 113; PyFloat (-44); PyFloat 154; PyFloat (-10)]; PyNone]
      = length ["1"; "2"].
Proof.
  eapply (get_capabilities_lengths survey_env sample_url empty_world).
  vm_compute. reflexivity.
Defined.

(** * Further properties of the code *)

(** ** getwcs_dem: what it does to the files *)

Module Effects.

Lemma makedirs_keeps env outpath w res w1 q n :
  os_makedirs env outpath w = (res, w1) →
  files w !! q = Some n → files w1 !! q = Some n.
Proof.
  unfold os_makedirs. intros H Hq.
  destruct (os_refuses env (CallMakedirs outpath)); [by simplify_eq|].
  destruct (String.eqb outpath ""); [by simplify_eq|].
  destruct (files w !! outpath) as [[content|]|] eqn:E; simplify_eq/=; try done.
  rewrite lookup_insert_ne; [done | congruence].
Qed.

Lemma download_keeps env outpath bbox r url crs w res w' q n :
  download env outpath bbox r url crs w = (res, w') →
  files w !! q = Some n → files w' !! q = Some n.
Proof.
  run. intros H Hq.
  destruct (WebCoverageService env url "1.0.0" 300) as [e|wcs]; [by simplify_eq|].
  destruct (contents_lookup (contents wcs) "1") as [cm|]; [|by simplify_eq].
  destruct (fname_out (title cm) (strftime_Ymd (utc_today env))) as [e|name];
    [by simplify_eq|].
  cbn [files trace] in H.
  set (path := os_path_join outpath name) in *.
  destruct (bool_decide (is_Some (files w !! path))) eqn:Hfound; [by simplify_eq|].
  apply bool_decide_eq_false_1 in Hfound.
  assert (Hne : path ≠ q) by (intros ->; apply Hfound; eauto).
  destruct (truediv env r (PyInt 3600)); [by simplify_eq|].
  cbn [files trace] in H.
  destruct (getCoverage wcs _); [by simplify_eq|].
  destruct (os_refuses env (CallOpen path)); [by simplify_eq|].
  cbn [files trace] in H.
  assert (Hopened : <[path := File []]> (files w) !! q = Some n)
    by (rewrite lookup_insert_ne; done).
  destruct (files w !! path) as [[content|]|]; [| by simplify_eq |].
  all: destruct (read _); [by simplify_eq|].
  all: destruct (os_refuses env (CallWrite path)); simplify_eq/=; try done.
  all: rewrite lookup_insert_ne; done.
Qed.

(** The skip of lines 164-165, for any box, resolution and reference
    system. *)
Lemma getwcs_dem_found env outpath bbox r url crs w wcs cm name :
  os_refuses env (CallMakedirs outpath) = None →
  outpath ≠ "" →
  files w !! outpath = Some Dir →
  WebCoverageService env url "1.0.0" 300 = inr wcs →
  contents_lookup (contents wcs) "1" = Some cm →
  fname_out (title cm) (strftime_Ymd (utc_today env)) = inr name →
  is_Some (files w !! os_path_join outpath name) →
  getwcs_dem env outpath bbox r url crs w
  = (inr (PyStr (os_path_join outpath name)),
     {| files := files w;
        trace := trace w ++ found_events url (os_path_join outpath name) |}).
Proof.
  intros Hok Hne Hdir Hwcs Hcm Hname Hthere.
  rewrite getwcs_dem_stages, (makedirs_existing _ _ _ Hok Hne Hdir).
  rewrite (download_found _ _ _ _ _ _ _ _ _ _ Hwcs Hcm Hname Hthere). reflexivity.
Qed.


Lemma download_counts env outpath bbox r url crs w res w' :
  download env outpath bbox r url crs w = (res, w') →
  ∃ evs, trace w' = trace w ++ evs
    ∧ (transfers evs ≤ 1)%nat
    ∧ length (filter is_query evs) = 1%nat.
Proof.
  run. intros H.
  repeat (case_match; simplify_eq/=).
  all: rewrite <- ?app_assoc; eexists; (split; [reflexivity|]).
  all: vm_compute; split; [lia | reflexivity].
Qed.

End Effects.

Import Effects.

(** X1: whatever the outcome of [getwcs_dem], a file or directory that
    existed before the call is there after it, unchanged. *)
Theorem getwcs_dem_keeps_files env outpath bbox r url crs w res w' q n :
  getwcs_dem env outpath bbox r url crs w = (res, w') →
  files w !! q = Some n →
  files w' !! q = Some n.
Proof.
  rewrite getwcs_dem_stages. intros H Hq.
  destruct (os_makedirs env outpath w) as [[e|[]] w1] eqn:Hmk.
  - injection H as _ <-. exact (makedirs_keeps _ _ _ _ _ _ _ Hmk Hq).
  - pose proof (makedirs_keeps _ _ _ _ _ _ _ Hmk Hq) as Hq1.
    destruct (download env outpath bbox (effective_resolution r) url crs w1)
      as [[e|p] w2] eqn:Hdl; injection H as _ <-;
      exact (download_keeps _ _ _ _ _ _ _ _ _ _ _ Hdl Hq1).
Qed.

Lemma getwcs_dem_keeps_files_witness :
  let w := {| files := {["./test_DEM/notes.txt" := File sample_body]}; trace := [] |} in
  files (snd (getwcs_dem (sample_env (PyStr "DEM 1 Second Grid")) "./test_DEM/" sample_bbox
                (PyInt 100) sample_url (PyStr "EPSG:4326") w)) !! "./test_DEM/notes.txt"
  = Some (File sample_body).
Proof.
  intros w.
  eapply (getwcs_dem_keeps_files (sample_env (PyStr "DEM 1 Second Grid")) "./test_DEM/"
            sample_bbox (PyInt 100) sample_url (PyStr "EPSG:4326") w).
  - apply surjective_pairing.
  - vm_compute. reflexivity.
Defined.

(** X2: when [getwcs_dem] returns, with the path or with [False], the output
    directory exists. *)
Theorem getwcs_dem_makes_directory env outpath bbox r url crs w v w' :
  getwcs_dem env outpath bbox r url crs w = (inr v, w') →
  files w' !! outpath = Some Dir.
Proof.
  rewrite getwcs_dem_stages. intros H.
  destruct (os_makedirs env outpath w) as [[e|[]] w1] eqn:Hmk; [discriminate H|].
  apply makedirs_ok_inv in Hmk as (_ & _ & Hdir & _).
  destruct (download env outpath bbox (effective_resolution r) url crs w1)
    as [[e|p] w2] eqn:Hdl; injection H as _ <-;
    exact (download_keeps _ _ _ _ _ _ _ _ _ _ _ Hdl Hdir).
Qed.

Lemma getwcs_dem_makes_directory_witness :
  files (snd (getwcs_dem offline_env "./test_DEM/" sample_bbox (PyInt 100) sample_url
                (PyStr "EPSG:4326") empty_world)) !! "./test_DEM/"
  = Some Dir.
Proof.
  eapply (getwcs_dem_makes_directory offline_env "./test_DEM/" sample_bbox (PyInt 100)
            sample_url (PyStr "EPSG:4326") empty_world (PyBool false)).
  vm_compute. reflexivity.
Defined.



(** X4: one call of [getwcs_dem] that passes the directory creation asks the
    service for its capabilities exactly once and issues at most one coverage
    request, whatever its outcome. *)
Theorem getwcs_dem_request_count env outpath bbox r url crs w v w' :
  getwcs_dem env outpath bbox r url crs w = (inr v, w') →
  ∃ evs, trace w' = trace w ++ evs
    ∧ (transfers evs ≤ 1)%nat
    ∧ length (filter is_query evs) = 1%nat.
Proof.
  rewrite getwcs_dem_stages. intros H.
  destruct (os_makedirs env outpath w) as [[e|[]] w1] eqn:Hmk; [discriminate H|].
  apply makedirs_ok_inv in Hmk as (_ & _ & _ & Htr & _).
  destruct (download env outpath bbox (effective_resolution r) url crs w1)
    as [[e|p] w2] eqn:Hdl;
    apply download_counts in Hdl as (evs & Hevs & Hone & Hquery); injection H as _ <-.
  - set (notice := [EvPrint [PyStr "Download failed"]]).
    assert (Ht : length (filter is_transfer notice) = 0%nat) by reflexivity.
    assert (Hq : length (filter is_query notice) = 0%nat) by reflexivity.
    exists (evs ++ notice).
    cbn [trace]. rewrite Hevs, Htr, <- app_assoc. split; [reflexivity|].
    unfold transfers in *. rewrite !filter_app, !length_app, Ht, Hq.
    split; lia.
  - exists evs. rewrite Hevs, Htr. auto.
Qed.

Lemma getwcs_dem_request_count_witness :
  let w' := snd (getwcs_dem (sample_env (PyStr "DEM 1 Second Grid")) "./test_DEM/" sample_bbox
                   (PyInt 100) sample_url (PyStr "EPSG:4326") empty_world) in
  ∃ evs, trace w' = trace empty_world ++ evs
    ∧ (transfers evs ≤ 1)%nat
    ∧ length (filter is_query evs) = 1%nat.
Proof.
  intros w'.
  eapply (getwcs_dem_request_count (sample_env (PyStr "DEM 1 Second Grid")) "./test_DEM/"
            sample_bbox (PyInt 100) sample_url (PyStr "EPSG:4326") empty_world).
  vm_compute. reflexivity.
Defined.

(** ** getwcs_dem: what a failed or an earlier download leaves behind *)



(** X6: the file of the day is never fetched again, whatever is asked for.
    After a call that returned a path, a call on the same UTC date for the
    same directory and service, but with any other box, resolution or
    reference system, returns the same path, issues no coverage request and
    changes no file. *)
Theorem getwcs_dem_same_day_other_box env outpath url w0 p w1
    bbox1 r1 crs1 bbox2 r2 crs2 :
  getwcs_dem env outpath bbox1 r1 url crs1 w0 = (inr (PyStr p), w1) →
  ∃ evs w2,
    getwcs_dem env outpath bbox2 r2 url crs2 w1 = (inr (PyStr p), w2)
    ∧ files w2 = files w1
    ∧ trace w2 = trace w1 ++ evs
    ∧ transfers evs = 0%nat
    ∧ file_changes evs = 0%nat.
Proof.
  intros H. rewrite getwcs_dem_stages in H.
  destruct (os_makedirs env outpath w0) as [[e|[]] wa] eqn:Hmk; [discriminate H|].
  destruct (download env outpath bbox1 (effective_resolution r1) url crs1 wa)
    as [[e|p'] wb] eqn:Hdl; [discriminate H|].
  injection H as -> ->.
  pose proof (makedirs_ok_inv _ _ _ _ Hmk) as (Hok & Hne & Hdir & _ & _).
  pose proof (download_keeps _ _ _ _ _ _ _ _ _ _ _ Hdl Hdir) as Hdir1.
  pose proof (download_returns_inv _ _ _ _ _ _ _ _ _ Hdl)
    as (wcs & cm & name & Hwcs & Hcm & Hname & -> & Hcases).
  assert (Hthere : is_Some (files w1 !! os_path_join outpath name)).
  { destruct Hcases as [(Hfound & -> & _) | (_ & q & data & _ & -> & _)]; [done|].
    rewrite lookup_insert_eq. eauto. }
  exists (found_events url (os_path_join outpath name)),
         {| files := files w1;
            trace := trace w1 ++ found_events url (os_path_join outpath name) |}.
  split_and!; try done.
  exact (getwcs_dem_found _ _ _ _ _ _ _ wcs cm name Hok Hne Hdir1 Hwcs Hcm Hname Hthere).
Qed.

Lemma getwcs_dem_same_day_other_box_witness :
  let env := sample_env (PyStr "DEM 1 Second Grid") in
  let p := "./test_DEM/DEM_1_Second_Grid_2022-03-09.tif" in
  let w1 := snd (getwcs_dem env "./test_DEM/" sample_bbox (PyInt 100) sample_url
                   (PyStr "EPSG:4326") empty_world) in
  ∃ evs w2,
    getwcs_dem env "./test_DEM/" (PyTuple [PyInt 140; PyInt (-40); PyInt 141; PyInt (-39)])
      (PyInt 1) sample_url (PyStr "EPSG:3857") w1 = (inr (PyStr p), w2)
    ∧ files w2 = files w1
    ∧ trace w2 = trace w1 ++ evs
    ∧ transfers evs = 0%nat
    ∧ file_changes evs = 0%nat.
Proof.
  intros env p w1.
  apply (getwcs_dem_same_day_other_box env "./test_DEM/" sample_url empty_world p w1
           sample_bbox (PyInt 100) (PyStr "EPSG:4326")).
  vm_compute. reflexivity.
Defined.

(** X7: the layer is asked for under the fixed identifier ['1']. Against a
    service that lists no coverage under that key, whatever else it lists,
    [getwcs_dem] creates the directory, returns [False], and has made no
    coverage request. *)
Theorem getwcs_dem_missing_layer env outpath bbox r url crs w w1 wcs :
  os_makedirs env outpath w = (inr tt, w1) →
  WebCoverageService env url "1.0.0" 300 = inr wcs →
  contents_lookup (contents wcs) "1" = None →
  getwcs_dem env outpath bbox r url crs w
  = (inr (PyBool false),
     {| files := files w1;
        trace := trace w ++ [EvGetCapabilities url; EvPrint [PyStr "Download failed"]] |}).
Proof.
  intros Hmk Hwcs Hlayer.
  pose proof (makedirs_ok_inv _ _ _ _ Hmk) as (_ & _ & _ & Htr & _).
  rewrite getwcs_dem_stages, Hmk. run. rewrite Hwcs, Hlayer.
  cbn [files trace]. rewrite Htr, <- app_assoc. reflexivity.
Qed.

Lemma getwcs_dem_missing_layer_witness :
  let other := {| contents := [("dem_h", {| title := PyStr "DEM 1 Second Grid";
                                              abstract := PyNone;
                                              boundingBoxWGS84 := PyNone |})];
                  getCoverage := fun _ => inr {| read := inr sample_body |} |} in
  let env := {| truediv := truediv_small;
                WebCoverageService := fun _ _ _ => inr other;
                utc_today := {| year := 2022; month := 3; day := 9 |};
                os_refuses := fun _ => None;
                gdal_DEMProcessing := fun _ _ _ _ => inl RuntimeError |} in
  let w1 := {| files := {["out" := Dir]}; trace := [] |} in
  getwcs_dem env "out" sample_bbox (PyInt 100) sample_url (PyStr "EPSG:4326") empty_world
  = (inr (PyBool false),
     {| files := files w1;
        trace := trace empty_world
                 ++ [EvGetCapabilities sample_url; EvPrint [PyStr "Download failed"]] |}).
Proof.
  intros other env w1.
  apply (getwcs_dem_missing_layer env "out" sample_bbox (PyInt 100) sample_url
           (PyStr "EPSG:4326") empty_world w1 other).
  - vm_compute. reflexivity.
  - reflexivity.
  - reflexivity.
Defined.

(** ** dem2slope, dem2aspect: any input path *)

Module Derived.

Lemma rfind_zero_no_sep (s : string) : rfind_sep_next s = 0%nat → has_sep s = false.
Proof.
  induction s as [|c s IH]; [reflexivity|].
  cbn [rfind_sep_next has_sep]. destruct (rfind_sep_next s); [|discriminate].
  destruct (is_sep c); [discriminate|]. intros _. exact (IH eq_refl).
Qed.

Lemma basename_no_sep (p : string) : has_sep (os_path_basename p) = false.
Proof.
  unfold os_path_basename. induction p as [|c p IH]; [reflexivity|].
  cbn [rfind_sep_next]. destruct (rfind_sep_next p) as [|k] eqn:E.
  - pose proof (rfind_zero_no_sep p E) as Hp.
    destruct (is_sep c) eqn:Hc; cbn [slice_from has_sep]; [exact Hp|].
    rewrite Hc, Hp. reflexivity.
  - exact IH.
Qed.

Lemma has_sep_app (s t : string) : has_sep (s +:+ t) = has_sep s || has_sep t.
Proof.
  induction s as [|c s IH]; [reflexivity|].
  rewrite str_app_cons. cbn [has_sep]. rewrite IH. apply orb_assoc.
Qed.

Lemma no_sep_relative (s : string) : has_sep s = false → startswith_sep s = false.
Proof.
  destruct s as [|c s]; [reflexivity|].
  cbn [has_sep startswith_sep]. intros [Hc _]%orb_false_elim. exact Hc.
Qed.

Lemma basename_of_name (f : string) : has_sep f = false → os_path_basename f = f.
Proof.
  intros Hf. unfold os_path_basename. rewrite (rfind_no_sep f Hf). destruct f; reflexivity.
Qed.

Lemma dirname_of_name (f : string) : has_sep f = false → os_path_dirname f = "".
Proof.
  intros Hf. unfold os_path_dirname. rewrite (rfind_no_sep f Hf). destruct f; reflexivity.
Qed.

Lemma all_sep_ends (s : string) : all_sep s = true → s ≠ "" → endswith_sep s = true.
Proof.
  induction s as [|c s IH]; [done|].
  cbn [all_sep endswith_sep]. intros [Hc Hs]%andb_true_iff _.
  destruct s as [|c' s']; [exact Hc|]. apply IH; [exact Hs | discriminate].
Qed.

Lemma all_sep_rotate (s : string) : all_sep s = true → String "/" s = s +:+ "/".
Proof.
  induction s as [|c s IH]; [reflexivity|].
  cbn [all_sep]. intros [Hc Hs]%andb_true_iff.
  apply Ascii.eqb_eq in Hc as ->.
  rewrite str_app_cons, <- (IH Hs). reflexivity.
Qed.

(** The three shapes of a directory name that [os.path.dirname] gives. *)
Lemma dirname_shape (p : string) :
  os_path_dirname p = ""
  ∨ (∃ D, os_path_dirname p = D +:+ "/" ∧ all_sep D = true)
  ∨ (all_sep (os_path_dirname p) = false ∧ endswith_sep (os_path_dirname p) = false).
Proof.
  unfold os_path_dirname.
  set (head := slice_to (rfind_sep_next p) p).
  destruct (String.eqb_spec head "") as [->|Hne]; [left; reflexivity|].
  destruct (all_sep head) eqn:Hall; cbn [negb andb].
  - right; left. destruct head as [|c rest]; [done|].
    cbn [all_sep] in Hall. apply andb_true_iff in Hall as [Hc Hrest].
    apply Ascii.eqb_eq in Hc as ->. exists rest. split; [apply all_sep_rotate|]; exact Hrest.
  - right; right. split; [|apply endswith_sep_rstrip].
    destruct (all_sep (rstrip_sep head)) eqn:Hstrip; [|reflexivity].
    assert (Hsome : rstrip_sep head ≠ "")
      by (intros E; apply rstrip_empty_iff in E; congruence).
    pose proof (all_sep_ends _ Hstrip Hsome) as Hends.
    rewrite endswith_sep_rstrip in Hends. discriminate Hends.
Qed.

(** Joining a name to the directory of a path and splitting again. *)
Lemma join_dirname_split (p b : string) :
  has_sep b = false →
  os_path_dirname (os_path_join (os_path_dirname p) b) = os_path_dirname p
  ∧ os_path_basename (os_path_join (os_path_dirname p) b) = b.
Proof.
  intros Hb. pose proof (no_sep_relative b Hb) as Hrel.
  rewrite (join_relative _ _ Hrel).
  destruct (dirname_shape p) as [-> | [(D & -> & HD) | [Hall Hends]]].
  - cbn [String.eqb orb]. rewrite str_app_nil_l.
    split; [apply dirname_of_name | apply basename_of_name]; exact Hb.
  - rewrite endswith_sep_snoc, orb_true_r, str_app_assoc.
    rewrite (dirname_dir_file D b Hb), (basename_dir_file D b Hb).
    unfold dir_part. rewrite HD. split; reflexivity.
  - rewrite Hends, orb_false_r.
    destruct (String.eqb_spec (os_path_dirname p) "") as [E|_];
      [rewrite E in Hall; discriminate Hall|].
    rewrite (dirname_dir_file _ b Hb), (basename_dir_file _ b Hb).
    unfold dir_part. rewrite Hall. split; [apply rstrip_id, Hends | reflexivity].
Qed.

Lemma dem2slope_returns_inv env p w out w' :
  dem2slope env p w = (inr out, w') →
  out = os_path_join (os_path_dirname p) ("Slope_" +:+ os_path_basename p).
Proof.
  cbv [dem2slope DEMProcessing bind print emit ret].
  destruct (gdal_DEMProcessing env _ _ _ _); [discriminate|]. intros [= <- _]. reflexivity.
Qed.

Lemma dem2aspect_returns_inv env p w out w' :
  dem2aspect env p w = (inr out, w') →
  out = os_path_join (os_path_dirname p) ("Aspect_" +:+ os_path_basename p).
Proof.
  cbv [dem2aspect DEMProcessing bind print emit ret].
  destruct (gdal_DEMProcessing env _ _ _ _); [discriminate|]. intros [= <- _]. reflexivity.
Qed.

End Derived.

Import Derived.

(** X8: for every input path, the path that [dem2slope] or [dem2aspect]
    returns has the directory name of the input as its directory name, and
    the base name of the input behind [Slope_] or [Aspect_] as its base
    name. *)
Theorem dem2slope_dem2aspect_same_directory env (p : string) w :
  (∀ out w', dem2slope env p w = (inr out, w') →
     os_path_dirname out = os_path_dirname p
     ∧ os_path_basename out = "Slope_" +:+ os_path_basename p)
  ∧ (∀ out w', dem2aspect env p w = (inr out, w') →
       os_path_dirname out = os_path_dirname p
       ∧ os_path_basename out = "Aspect_" +:+ os_path_basename p).
Proof.
  split; intros out w' H;
    [apply dem2slope_returns_inv in H as -> | apply dem2aspect_returns_inv in H as ->];
    apply join_dirname_split; rewrite has_sep_app, basename_no_sep; reflexivity.
Qed.

Example dem2aspect_nested_ex :
  fst (dem2aspect (sample_env PyNone) "/data//dem/../x y.tif"
         {| files := {["/data//dem/../x y.tif" := File sample_body]}; trace := [] |})
  = inr "/data//dem/../Aspect_x y.tif".
Proof. vm_compute. reflexivity. Qed.

(** X9: an input that is a bare file name, without any separator, gives the
    prefixed name and no directory: the output goes where the process runs,
    unless the raster engine raises. *)
Theorem dem2slope_dem2aspect_bare_name env (f : string) w :
  has_sep f = false →
  fst (dem2slope env f w)
  = match gdal_DEMProcessing env ("Slope_" +:+ f) f "slope" (files w) with
    | inl e => inl e
    | inr _ => inr ("Slope_" +:+ f)
    end
  ∧ fst (dem2aspect env f w)
    = match gdal_DEMProcessing env ("Aspect_" +:+ f) f "aspect" (files w) with
      | inl e => inl e
      | inr _ => inr ("Aspect_" +:+ f)
      end.
Proof.
  intros Hf. unfold dem2slope, dem2aspect. rewrite !terrain_result.
  rewrite (basename_of_name f Hf), (dirname_of_name f Hf).
  split; reflexivity.
Qed.

Lemma dem2slope_dem2aspect_bare_name_witness :
  let w := {| files := {["dem.tif" := File sample_body]}; trace := [] |} in
  fst (dem2slope (sample_env PyNone) "dem.tif" w) = inr "Slope_dem.tif"
  ∧ fst (dem2aspect (sample_env PyNone) "dem.tif" w) = inr "Aspect_dem.tif".
Proof.
  intros w.
  exact (dem2slope_dem2aspect_bare_name (sample_env PyNone) "dem.tif" w eq_refl).
Defined.

(** ** get_capabilities: its effects *)

Module Listing.

Lemma row_effects wcs key lists w res w' :
  capabilities_row wcs key lists w = (res, w') →
  files w' = files w
  ∧ ∃ evs, trace w' = trace w ++ evs ∧ Forall (λ ev, is_print ev = true) evs.
Proof.
  destruct lists as [[tl dl] bl].
  cbv [capabilities_row wcs_getitem bind print emit ret raise].
  destruct (contents_lookup (contents wcs) key); intros [= <- <-]; cbn [files trace].
  all: split; [reflexivity|]; rewrite <- ?app_assoc; eexists; split; [reflexivity|].
  all: repeat constructor.
Qed.

Lemma loop_effects wcs keys :
  ∀ lists w res w',
  for_each keys (capabilities_row wcs) lists w = (res, w') →
  files w' = files w
  ∧ ∃ evs, trace w' = trace w ++ evs ∧ Forall (λ ev, is_print ev = true) evs.
Proof.
  induction keys as [|key keys IH]; intros lists w res w' H.
  - injection H as <- <-. split; [reflexivity|]. exists [].
    split; [symmetry; apply app_nil_r | constructor].
  - cbn [for_each] in H. unfold bind in H.
    destruct (capabilities_row wcs key lists w) as [[e|lists1] w1] eqn:Hrow;
      apply row_effects in Hrow as (Hf1 & evs1 & Ht1 & Hp1).
    + injection H as <- <-. eauto.
    + apply IH in H as (Hf2 & evs2 & Ht2 & Hp2).
      split; [congruence|]. exists (evs1 ++ evs2).
      rewrite Ht2, Ht1, <- app_assoc. split; [reflexivity|].
      apply Forall_app; auto.
Qed.

End Listing.

Import Listing.

(** X10: whatever its outcome, [get_capabilities] asks the service for its
    capabilities once and after that only prints: it creates and changes no
    file and issues no coverage request. *)
Theorem get_capabilities_effects env url w res w' :
  get_capabilities env url w = (res, w') →
  files w' = files w
  ∧ ∃ evs, trace w' = trace w ++ EvGetCapabilities url :: evs
           ∧ Forall (λ ev, is_print ev = true) evs.
Proof.
  unfold get_capabilities, connect, lift. cbv [bind emit print ret].
  destruct (WebCoverageService env url "1.0.0" 300) as [e|wcs].
  - intros [= <- <-]. split; [reflexivity|]. exists []. split; [reflexivity | constructor].
  - destruct (for_each _ _ _ _) as [[e|[[tl dl] bl]] w1] eqn:Hloop;
      apply loop_effects in Hloop as (Hf & evs & Ht & Hp);
      cbn [files trace] in Hf, Ht; intros [= <- <-].
    all: split; [exact Hf|].
    all: exists (EvPrint [PyStr "Following data layers are available:"] :: evs).
    all: rewrite Ht, <- !app_assoc; split; [reflexivity|].
    all: constructor; [reflexivity | exact Hp].
Qed.

Lemma get_capabilities_effects_witness :
  let w' := snd (get_capabilities survey_env sample_url empty_world) in
  files w' = files empty_world
  ∧ ∃ evs, trace w' = trace empty_world ++ EvGetCapabilities sample_url :: evs
           ∧ Forall (λ ev, is_print ev = true) evs.
Proof.
  intros w'.
  eapply (get_capabilities_effects survey_env sample_url empty_world).
  apply surjective_pairing.
Defined.

(** ** test_getwcs_dem: the functions in sequence *)

(** X11: the script does not look at what [getwcs_dem] returned. When the
    download fails and [getwcs_dem] returns [False], the script hands
    [False] to [dem2slope], whose first statement raises [TypeError]: the
    script ends with that exception, before any raster is processed or
    shown. *)
Theorem test_getwcs_dem_failed_download env viewer outpath w caps w1 w2 :
  get_capabilities env sample_url w = (inr caps, w1) →
  getwcs_dem env outpath sample_bbox (PyInt 100) sample_url (PyStr "EPSG:4326")
    (snd (print [PyStr "Retrieving data from Geoscience Australia DEM 1 arc second grid..."] w1))
  = (inr (PyBool false), w2) →
  test_getwcs_dem env viewer outpath w
  = (inl TypeError, snd (print [PyStr "Convert to slope and aspect..."] w2)).
Proof.
  intros Hcaps Hdl. unfold test_getwcs_dem.
  unfold bind at 1. fold sample_url. rewrite Hcaps.
  unfold bind at 1. cbn [print emit].
  unfold bind at 1. fold sample_bbox.
  cbn [print emit snd] in Hdl. rewrite Hdl.
  reflexivity.
Qed.

Lemma test_getwcs_dem_failed_download_witness :
  let run1 := get_capabilities survey_env sample_url empty_world in
  let run2 := getwcs_dem survey_env "./test_DEM/" sample_bbox (PyInt 100) sample_url
                (PyStr "EPSG:4326")
                (snd (print [PyStr "Retrieving data from Geoscience Australia DEM 1 arc second grid..."]
                        (snd run1))) in
  test_getwcs_dem survey_env sample_viewer "./test_DEM/" empty_world
  = (inl TypeError, snd (print [PyStr "Convert to slope and aspect..."] (snd run2))).
Proof.
  intros run1 run2.
  apply (test_getwcs_dem_failed_download survey_env sample_viewer "./test_DEM/" empty_world
           (["1"; "2"],
            [PyStr "DEM 1 Second Grid"; PyStr "DEM Smoothed"],
            [PyStr "Hydrologically enforced DEM"; PyNone],
            [PyTuple [PyFloat 113; PyFloat (-44); PyFloat 154; PyFloat (-10)]; PyNone])
           (snd run1) (snd run2)).
  - vm_compute. reflexivity.
  - vm_compute. reflexivity.
Defined.

(** X12: when the service cannot be reached the script stops in
    [get_capabilities], which lets the exception through: [getwcs_dem] is not
    called, so no [False] is returned and the output directory is not
    created. *)
Theorem test_getwcs_dem_service_down env viewer outpath w e :
  WebCoverageService env sample_url "1.0.0" 300 = inl e →
  test_getwcs_dem env viewer outpath w
  = (inl e, {| files := files w; trace := trace w ++ [EvGetCapabilities sample_url] |}).
Proof.
  intros Hdown. unfold test_getwcs_dem.
  unfold bind at 1. fold sample_url.
  unfold get_capabilities, connect, lift. cbv [bind emit ret]. rewrite Hdown.
  reflexivity.
Qed.

Lemma test_getwcs_dem_service_down_witness :
  test_getwcs_dem offline_env sample_viewer "./test_DEM/" empty_world
  = (inl (LibraryError "ConnectionError"),
     {| files := files empty_world;
        trace := trace empty_world ++ [EvGetCapabilities sample_url] |}).
Proof.
  exact (test_getwcs_dem_service_down offline_env sample_viewer "./test_DEM/" empty_world
           (LibraryError "ConnectionError") eq_refl).
Defined.

(** The script against a service that answers: the three rasters. *)
Example test_getwcs_dem_ex :
  let run := test_getwcs_dem (sample_env (PyStr "DEM 1 Second Grid")) sample_viewer
               "./test_DEM/" empty_world in
  fst run = inr tt
  ∧ files (snd run) !! "./test_DEM/DEM_1_Second_Grid_2022-03-09.tif" = Some (File sample_body)
  ∧ is_Some (files (snd run) !! "./test_DEM/Slope_DEM_1_Second_Grid_2022-03-09.tif")
  ∧ is_Some (files (snd run) !! "./test_DEM/Aspect_DEM_1_Second_Grid_2022-03-09.tif").
Proof. vm_compute. split_and!; eauto. Qed.
